(** * go-fed/activity: polymorphic functional properties and the Question type

    A shallow embedding of three generated files of the ActivityStreams
    vocabulary implementation:

    - [propertypartof]  (the functional property "partOf"),
    - [propertyliked]   (the functional property "liked"),
    - [typequestion]    (the aggregate type "Question").

    Go interface values are modelled as [option]s ([None] is the nil
    interface), Go maps as [gmap]s (a nil map behaves as the empty map for
    every read and [range] the code performs), and the pair [(value, error)]
    returned by fallible functions as a pair whose second component is an
    [option error]. *)

From Stdlib Require Import ZArith Bool Ascii.
From stdpp Require Import gmap strings list fin_maps.

Open Scope string_scope.
Set Warnings "-register-all".

(** ** Shared data model *)

(** The loosely typed document tree produced by unmarshalling
    ([interface{}] in the source).  [JNil] is the nil interface; the payload
    of [JNum] is never inspected by the code modelled here. *)
Inductive JValue : Type :=
| JNil
| JBool (b : bool)
| JNum (n : Z)
| JStr (s : string)
| JArr (l : list JValue)
| JObj (m : gmap string JValue).

(** Go's [error] values; the constructors name the [fmt.Errorf] call sites
    of [DeserializeQuestion], [ErrExternal] stands for any error produced by
    a collaborator outside these files. *)
Inductive error : Type :=
| ErrNoType                         (* no "type" property in map *)
| ErrNotOfType (typeName : string)  (* "type" property is not of "Question" type: ... *)
| ErrCouldNotFind                   (* could not find a "type" property of value "Question" *)
| ErrUnrecognizedType (v : JValue)  (* "type" property is unrecognized type: %T *)
| ErrExternal (msg : string).

(** The result of a call [v, err := f(...)]: when [err != nil] the source
    never looks at [v], so only the two observable shapes are kept. *)
Inductive Res (A : Type) : Type :=
| Ok (v : A)
| Err (e : error).
Arguments Ok {A} v.
Arguments Err {A} e.

Definition is_Err {A} (r : Res A) : bool :=
  match r with Ok _ => false | Err _ => true end.

(** The namespace key shared by every file. *)
Definition vocabURI : string := "https://www.w3.org/TR/activitystreams-vocabulary".

(** The part of Go's [net/url] the properties rely on: [url.Parse], the
    [Scheme] field and the [String] method. *)
Class NetUrl := {
  URL : Type;
  url_Parse : string -> Res URL;
  url_Scheme : URL -> string;
  url_String : URL -> string
}.

(** The methods of a vocabulary type ([vocab.ActivityStreamsLink], ...)
    that the properties delegate to. *)
Class VocabType (T : Type) := {
  vt_JSONLDContext : T -> gmap string string;
  vt_Serialize : T -> Res (gmap string JValue)
}.

(** [alias := ""; if a, ok := aliasMap[vocabURI]; ok { alias = a }] *)
Definition lookupAlias (aliasMap : gmap string string) : string :=
  match aliasMap !! vocabURI with
  | Some a => a
  | None => ""
  end.

(** [propName := name; if len(alias) > 0 { propName = fmt.Sprintf("%s:%s", alias, name) }] *)
Definition qualify (alias name : string) : string :=
  if (0 <? String.length alias)%nat then alias +:+ ":" +:+ name else name.

(** [for k, v := range child { m[k] = v }] *)
Definition assignAll (child m : gmap string string) : gmap string string :=
  map_fold (fun k v acc => <[k:=v]> acc) m child.

(** The string branch of property deserialization:
    [if s, ok := i.(string); ok { u, err := url.Parse(s); if err == nil && len(u.Scheme) > 0 {...} }].
    Returns the URL to store when that branch returns. *)
Definition parseIRI `{NetUrl} (i : JValue) : option URL :=
  match i with
  | JStr s =>
      match url_Parse s with
      | Ok u => if (0 <? String.length (url_Scheme u))%nat then Some u else None
      | Err _ => None
      end
  | _ => None
  end.

Definition isSome {A} (o : option A) : bool :=
  match o with Some _ => true | None => false end.

(** [return v.Serialize()] inside a property: a vocabulary type serializes
    to a map, which the property hands on as an [interface{}]. *)
Definition serializeType {T} `{!VocabType T} (v : T) : Res JValue :=
  match vt_Serialize v with
  | Ok m => Ok (JObj m)
  | Err e => Err e
  end.

(** The comparison method [LessThan] of a vocabulary type.  Its argument is
    whatever the other property's getter returned, so it may be nil. *)
Class VocabLess (T : Type) := {
  vt_LessThan : T -> option T -> bool
}.

(** The error of [SetType]: "illegal type to set on ... property: %T". *)
Inductive SetTypeError : Type :=
| ErrIllegalType.

(** ** The "partOf" property *)
Module PartOf.
Section Defs.
Context `{NetUrl}.
Context {Link Collection CollectionPage Mention
         OrderedCollection OrderedCollectionPage : Type}.
Context `{!VocabType Link, !VocabType Collection, !VocabType CollectionPage,
          !VocabType Mention, !VocabType OrderedCollection,
          !VocabType OrderedCollectionPage}.

Record ActivityStreamsPartOfProperty : Type := mk {
  activitystreamsLinkMember : option Link;
  activitystreamsCollectionMember : option Collection;
  activitystreamsCollectionPageMember : option CollectionPage;
  activitystreamsMentionMember : option Mention;
  activitystreamsOrderedCollectionMember : option OrderedCollection;
  activitystreamsOrderedCollectionPageMember : option OrderedCollectionPage;
  unknown : JValue;
  iri : option URL;
  alias : string
}.

(** The typed deserializers the package-level manager [mgr] hands out. *)
Record Manager : Type := {
  DeserializeLinkActivityStreams :
    gmap string JValue -> gmap string string -> Res (option Link);
  DeserializeCollectionActivityStreams :
    gmap string JValue -> gmap string string -> Res (option Collection);
  DeserializeCollectionPageActivityStreams :
    gmap string JValue -> gmap string string -> Res (option CollectionPage);
  DeserializeMentionActivityStreams :
    gmap string JValue -> gmap string string -> Res (option Mention);
  DeserializeOrderedCollectionActivityStreams :
    gmap string JValue -> gmap string string -> Res (option OrderedCollection);
  DeserializeOrderedCollectionPageActivityStreams :
    gmap string JValue -> gmap string string -> Res (option OrderedCollectionPage)
}.

(** A struct literal that names only [alias]: every other field is zero. *)
Definition zero (a : string) : ActivityStreamsPartOfProperty :=
  mk None None None None None None JNil None a.

(** The map branch: the [if ... else if ...] chain over the candidate
    kinds; [None] when the chain falls through. *)
Definition dispatch (mgr : Manager) (alias : string)
    (m : gmap string JValue) (aliasMap : gmap string string)
    : option ActivityStreamsPartOfProperty :=
  match DeserializeLinkActivityStreams mgr m aliasMap with
  | Ok v => Some (mk v None None None None None JNil None alias)
  | Err _ =>
  match DeserializeCollectionActivityStreams mgr m aliasMap with
  | Ok v => Some (mk None v None None None None JNil None alias)
  | Err _ =>
  match DeserializeCollectionPageActivityStreams mgr m aliasMap with
  | Ok v => Some (mk None None v None None None JNil None alias)
  | Err _ =>
  match DeserializeMentionActivityStreams mgr m aliasMap with
  | Ok v => Some (mk None None None v None None JNil None alias)
  | Err _ =>
  match DeserializeOrderedCollectionActivityStreams mgr m aliasMap with
  | Ok v => Some (mk None None None None v None JNil None alias)
  | Err _ =>
  match DeserializeOrderedCollectionPageActivityStreams mgr m aliasMap with
  | Ok v => Some (mk None None None None None v JNil None alias)
  | Err _ => None
  end end end end end end.

Definition dispatchValue (mgr : Manager) (alias : string)
    (i : JValue) (aliasMap : gmap string string)
    : option ActivityStreamsPartOfProperty :=
  match i with
  | JObj m => dispatch mgr alias m aliasMap
  | _ => None
  end.

Definition DeserializePartOfProperty (mgr : Manager)
    (m : gmap string JValue) (aliasMap : gmap string string)
    : option ActivityStreamsPartOfProperty * option error :=
  let alias := lookupAlias aliasMap in
  let propName := qualify alias "partOf" in
  match m !! propName with
  | Some i =>
      match parseIRI i with
      | Some u => (Some (mk None None None None None None JNil (Some u) alias), None)
      | None =>
          match dispatchValue mgr alias i aliasMap with
          | Some this => (Some this, None)
          | None => (Some (mk None None None None None None i None alias), None)
          end
      end
  | None => (None, None)
  end.

Definition NewActivityStreamsPartOfProperty : ActivityStreamsPartOfProperty :=
  zero "".

Definition Clear (this : ActivityStreamsPartOfProperty) : ActivityStreamsPartOfProperty :=
  mk None None None None None None JNil None (alias this).

Definition IsActivityStreamsLink (this : ActivityStreamsPartOfProperty) : bool :=
  isSome (activitystreamsLinkMember this).
Definition IsActivityStreamsCollection (this : ActivityStreamsPartOfProperty) : bool :=
  isSome (activitystreamsCollectionMember this).
Definition IsActivityStreamsCollectionPage (this : ActivityStreamsPartOfProperty) : bool :=
  isSome (activitystreamsCollectionPageMember this).
Definition IsActivityStreamsMention (this : ActivityStreamsPartOfProperty) : bool :=
  isSome (activitystreamsMentionMember this).
Definition IsActivityStreamsOrderedCollection (this : ActivityStreamsPartOfProperty) : bool :=
  isSome (activitystreamsOrderedCollectionMember this).
Definition IsActivityStreamsOrderedCollectionPage (this : ActivityStreamsPartOfProperty) : bool :=
  isSome (activitystreamsOrderedCollectionPageMember this).
Definition IsIRI (this : ActivityStreamsPartOfProperty) : bool :=
  isSome (iri this).

Definition HasAny (this : ActivityStreamsPartOfProperty) : bool :=
  IsActivityStreamsLink this ||
  IsActivityStreamsCollection this ||
  IsActivityStreamsCollectionPage this ||
  IsActivityStreamsMention this ||
  IsActivityStreamsOrderedCollection this ||
  IsActivityStreamsOrderedCollectionPage this ||
  isSome (iri this).

(** [child] of [JSONLDContext]: the context of the populated kind, the
    nil map when no typed kind is populated. *)
Definition childContext (this : ActivityStreamsPartOfProperty) : gmap string string :=
  match activitystreamsLinkMember this with Some v => vt_JSONLDContext v | None =>
  match activitystreamsCollectionMember this with Some v => vt_JSONLDContext v | None =>
  match activitystreamsCollectionPageMember this with Some v => vt_JSONLDContext v | None =>
  match activitystreamsMentionMember this with Some v => vt_JSONLDContext v | None =>
  match activitystreamsOrderedCollectionMember this with Some v => vt_JSONLDContext v | None =>
  match activitystreamsOrderedCollectionPageMember this with Some v => vt_JSONLDContext v | None =>
  ∅
  end end end end end end.

Definition JSONLDContext (this : ActivityStreamsPartOfProperty) : gmap string string :=
  let m : gmap string string := {[ vocabURI := alias this ]} in
  assignAll (childContext this) m.

Definition KindIndex (this : ActivityStreamsPartOfProperty) : Z :=
  if IsActivityStreamsLink this then 0
  else if IsActivityStreamsCollection this then 1
  else if IsActivityStreamsCollectionPage this then 2
  else if IsActivityStreamsMention this then 3
  else if IsActivityStreamsOrderedCollection this then 4
  else if IsActivityStreamsOrderedCollectionPage this then 5
  else if IsIRI this then -2
  else -1.

Definition Name (this : ActivityStreamsPartOfProperty) : string := "partOf".

Definition Serialize (this : ActivityStreamsPartOfProperty) : Res JValue :=
  match activitystreamsLinkMember this with Some v => serializeType v | None =>
  match activitystreamsCollectionMember this with Some v => serializeType v | None =>
  match activitystreamsCollectionPageMember this with Some v => serializeType v | None =>
  match activitystreamsMentionMember this with Some v => serializeType v | None =>
  match activitystreamsOrderedCollectionMember this with Some v => serializeType v | None =>
  match activitystreamsOrderedCollectionPageMember this with Some v => serializeType v | None =>
  match iri this with Some u => Ok (JStr (url_String u)) | None =>
  Ok (unknown this)
  end end end end end end end.

Definition SetActivityStreamsCollection (v : option Collection)
    (this : ActivityStreamsPartOfProperty) : ActivityStreamsPartOfProperty :=
  let this := Clear this in
  mk (activitystreamsLinkMember this) v (activitystreamsCollectionPageMember this)
     (activitystreamsMentionMember this) (activitystreamsOrderedCollectionMember this)
     (activitystreamsOrderedCollectionPageMember this) (unknown this) (iri this) (alias this).

Definition SetActivityStreamsCollectionPage (v : option CollectionPage)
    (this : ActivityStreamsPartOfProperty) : ActivityStreamsPartOfProperty :=
  let this := Clear this in
  mk (activitystreamsLinkMember this) (activitystreamsCollectionMember this) v
     (activitystreamsMentionMember this) (activitystreamsOrderedCollectionMember this)
     (activitystreamsOrderedCollectionPageMember this) (unknown this) (iri this) (alias this).

Definition SetActivityStreamsLink (v : option Link)
    (this : ActivityStreamsPartOfProperty) : ActivityStreamsPartOfProperty :=
  let this := Clear this in
  mk v (activitystreamsCollectionMember this) (activitystreamsCollectionPageMember this)
     (activitystreamsMentionMember this) (activitystreamsOrderedCollectionMember this)
     (activitystreamsOrderedCollectionPageMember this) (unknown this) (iri this) (alias this).

Definition SetActivityStreamsMention (v : option Mention)
    (this : ActivityStreamsPartOfProperty) : ActivityStreamsPartOfProperty :=
  let this := Clear this in
  mk (activitystreamsLinkMember this) (activitystreamsCollectionMember this)
     (activitystreamsCollectionPageMember this) v
     (activitystreamsOrderedCollectionMember this)
     (activitystreamsOrderedCollectionPageMember this) (unknown this) (iri this) (alias this).

Definition SetActivityStreamsOrderedCollection (v : option OrderedCollection)
    (this : ActivityStreamsPartOfProperty) : ActivityStreamsPartOfProperty :=
  let this := Clear this in
  mk (activitystreamsLinkMember this) (activitystreamsCollectionMember this)
     (activitystreamsCollectionPageMember this) (activitystreamsMentionMember this) v
     (activitystreamsOrderedCollectionPageMember this) (unknown this) (iri this) (alias this).

Definition SetActivityStreamsOrderedCollectionPage (v : option OrderedCollectionPage)
    (this : ActivityStreamsPartOfProperty) : ActivityStreamsPartOfProperty :=
  let this := Clear this in
  mk (activitystreamsLinkMember this) (activitystreamsCollectionMember this)
     (activitystreamsCollectionPageMember this) (activitystreamsMentionMember this)
     (activitystreamsOrderedCollectionMember this) v (unknown this) (iri this) (alias this).

Definition SetIRI (v : option URL)
    (this : ActivityStreamsPartOfProperty) : ActivityStreamsPartOfProperty :=
  let this := Clear this in
  mk (activitystreamsLinkMember this) (activitystreamsCollectionMember this)
     (activitystreamsCollectionPageMember this) (activitystreamsMentionMember this)
     (activitystreamsOrderedCollectionMember this)
     (activitystreamsOrderedCollectionPageMember this) (unknown this) v (alias this).

(** One call of a [Set<Kind>] method, with its argument. *)
Inductive SetCall : Type :=
| CallSetActivityStreamsLink (v : option Link)
| CallSetActivityStreamsCollection (v : option Collection)
| CallSetActivityStreamsCollectionPage (v : option CollectionPage)
| CallSetActivityStreamsMention (v : option Mention)
| CallSetActivityStreamsOrderedCollection (v : option OrderedCollection)
| CallSetActivityStreamsOrderedCollectionPage (v : option OrderedCollectionPage)
| CallSetIRI (v : option URL).

Definition call (this : ActivityStreamsPartOfProperty) (c : SetCall)
    : ActivityStreamsPartOfProperty :=
  match c with
  | CallSetActivityStreamsLink v => SetActivityStreamsLink v this
  | CallSetActivityStreamsCollection v => SetActivityStreamsCollection v this
  | CallSetActivityStreamsCollectionPage v => SetActivityStreamsCollectionPage v this
  | CallSetActivityStreamsMention v => SetActivityStreamsMention v this
  | CallSetActivityStreamsOrderedCollection v => SetActivityStreamsOrderedCollection v this
  | CallSetActivityStreamsOrderedCollectionPage v => SetActivityStreamsOrderedCollectionPage v this
  | CallSetIRI v => SetIRI v this
  end.

Definition calls (this : ActivityStreamsPartOfProperty) (cs : list SetCall)
    : ActivityStreamsPartOfProperty :=
  fold_left call cs this.

(** Is the argument of the call a non-nil value? *)
Definition argNonNil (c : SetCall) : bool :=
  match c with
  | CallSetActivityStreamsLink v => isSome v
  | CallSetActivityStreamsCollection v => isSome v
  | CallSetActivityStreamsCollectionPage v => isSome v
  | CallSetActivityStreamsMention v => isSome v
  | CallSetActivityStreamsOrderedCollection v => isSome v
  | CallSetActivityStreamsOrderedCollectionPage v => isSome v
  | CallSetIRI v => isSome v
  end.

(** The answers of the seven predicates, [IsIRI] last. *)
Definition isFlags (this : ActivityStreamsPartOfProperty) : list bool :=
  [ IsActivityStreamsLink this;
    IsActivityStreamsCollection this;
    IsActivityStreamsCollectionPage this;
    IsActivityStreamsMention this;
    IsActivityStreamsOrderedCollection this;
    IsActivityStreamsOrderedCollectionPage this;
    IsIRI this ].

(** The position in [isFlags] of the predicate a call is named after. *)
Definition flagOf (c : SetCall) : nat :=
  match c with
  | CallSetActivityStreamsLink _ => 0
  | CallSetActivityStreamsCollection _ => 1
  | CallSetActivityStreamsCollectionPage _ => 2
  | CallSetActivityStreamsMention _ => 3
  | CallSetActivityStreamsOrderedCollection _ => 4
  | CallSetActivityStreamsOrderedCollectionPage _ => 5
  | CallSetIRI _ => 6
  end%nat.

(** *** Comparison *)

Context `{!VocabLess Link, !VocabLess Collection, !VocabLess CollectionPage,
          !VocabLess Mention, !VocabLess OrderedCollection,
          !VocabLess OrderedCollectionPage}.

(** [this.iri.String() < o.GetIRI().String()]: [String] has a pointer
    receiver and reads the fields of the URL, so a nil [o.GetIRI()] is a
    run-time panic, here [None]. *)
Definition lessIRI (u : URL) (other : option URL) : option bool :=
  match other with
  | Some u' => Some (String.ltb (url_String u) (url_String u'))
  | None => None
  end.

(** [None] stands for a run-time panic. *)
Definition LessThan (this o : ActivityStreamsPartOfProperty) : option bool :=
  let idx1 := KindIndex this in
  let idx2 := KindIndex o in
  if (idx1 <? idx2)%Z then Some true
  else if (idx1 >? idx2)%Z then Some false
  else
  match activitystreamsLinkMember this with
  | Some v => Some (vt_LessThan v (activitystreamsLinkMember o)) | None =>
  match activitystreamsCollectionMember this with
  | Some v => Some (vt_LessThan v (activitystreamsCollectionMember o)) | None =>
  match activitystreamsCollectionPageMember this with
  | Some v => Some (vt_LessThan v (activitystreamsCollectionPageMember o)) | None =>
  match activitystreamsMentionMember this with
  | Some v => Some (vt_LessThan v (activitystreamsMentionMember o)) | None =>
  match activitystreamsOrderedCollectionMember this with
  | Some v => Some (vt_LessThan v (activitystreamsOrderedCollectionMember o)) | None =>
  match activitystreamsOrderedCollectionPageMember this with
  | Some v => Some (vt_LessThan v (activitystreamsOrderedCollectionPageMember o)) | None =>
  match iri this with
  | Some u => lessIRI u (iri o) | None =>
  Some false
  end end end end end end end.

(** *** The value as a [vocab.Type] *)

(** What the interface [vocab.Type] offers to "partOf": the answers of the
    type assertions [t.(vocab.ActivityStreamsLink)], ... on a non-nil [t],
    and the conversion of a member to [vocab.Type] that a [return] in
    [GetType] performs. *)
Class TypeViews (VType : Type) := {
  asLink : VType -> option Link;
  asCollection : VType -> option Collection;
  asCollectionPage : VType -> option CollectionPage;
  asMention : VType -> option Mention;
  asOrderedCollection : VType -> option OrderedCollection;
  asOrderedCollectionPage : VType -> option OrderedCollectionPage;
  ofLink : Link -> VType;
  ofCollection : Collection -> VType;
  ofCollectionPage : CollectionPage -> VType;
  ofMention : Mention -> VType;
  ofOrderedCollection : OrderedCollection -> VType;
  ofOrderedCollectionPage : OrderedCollectionPage -> VType
}.

Context {VType : Type} `{!TypeViews VType}.

Definition GetType (this : ActivityStreamsPartOfProperty) : option VType :=
  match activitystreamsLinkMember this with Some v => Some (ofLink v) | None =>
  match activitystreamsCollectionMember this with Some v => Some (ofCollection v) | None =>
  match activitystreamsCollectionPageMember this with Some v => Some (ofCollectionPage v) | None =>
  match activitystreamsMentionMember this with Some v => Some (ofMention v) | None =>
  match activitystreamsOrderedCollectionMember this with
  | Some v => Some (ofOrderedCollection v) | None =>
  match activitystreamsOrderedCollectionPageMember this with
  | Some v => Some (ofOrderedCollectionPage v) | None =>
  None
  end end end end end end.

(** A type assertion on the nil interface fails. *)
Definition assert {X} (view : VType -> option X) (t : option VType) : option X :=
  match t with
  | Some d => view d
  | None => None
  end.

(** The property after the call, and the error returned. *)
Definition SetType (t : option VType) (this : ActivityStreamsPartOfProperty)
    : ActivityStreamsPartOfProperty * option SetTypeError :=
  match assert asLink t with
  | Some v => (SetActivityStreamsLink (Some v) this, None) | None =>
  match assert asCollection t with
  | Some v => (SetActivityStreamsCollection (Some v) this, None) | None =>
  match assert asCollectionPage t with
  | Some v => (SetActivityStreamsCollectionPage (Some v) this, None) | None =>
  match assert asMention t with
  | Some v => (SetActivityStreamsMention (Some v) this, None) | None =>
  match assert asOrderedCollection t with
  | Some v => (SetActivityStreamsOrderedCollection (Some v) this, None) | None =>
  match assert asOrderedCollectionPage t with
  | Some v => (SetActivityStreamsOrderedCollectionPage (Some v) this, None) | None =>
  (this, Some ErrIllegalType)
  end end end end end end.

(** How many of the slots (typed members, IRI, unknown) are in use. *)
Definition slotsUsed (this : ActivityStreamsPartOfProperty) : nat :=
  length (List.filter (fun b => b) (isFlags this))
  + match unknown this with JNil => 0 | _ => 1 end.

End Defs.
Arguments ActivityStreamsPartOfProperty {_} _ _ _ _ _ _.
Arguments Manager _ _ _ _ _ _ : clear implicits.
Arguments SetCall {_} _ _ _ _ _ _.
End PartOf.

(** ** The "liked" property *)
Module Liked.
Section Defs.
Context `{NetUrl}.
Context {OrderedCollection Collection CollectionPage OrderedCollectionPage : Type}.
Context `{!VocabType OrderedCollection, !VocabType Collection,
          !VocabType CollectionPage, !VocabType OrderedCollectionPage}.

Record ActivityStreamsLikedProperty : Type := mk {
  activitystreamsOrderedCollectionMember : option OrderedCollection;
  activitystreamsCollectionMember : option Collection;
  activitystreamsCollectionPageMember : option CollectionPage;
  activitystreamsOrderedCollectionPageMember : option OrderedCollectionPage;
  unknown : JValue;
  iri : option URL;
  alias : string
}.

Record Manager : Type := {
  DeserializeOrderedCollectionActivityStreams :
    gmap string JValue -> gmap string string -> Res (option OrderedCollection);
  DeserializeCollectionActivityStreams :
    gmap string JValue -> gmap string string -> Res (option Collection);
  DeserializeCollectionPageActivityStreams :
    gmap string JValue -> gmap string string -> Res (option CollectionPage);
  DeserializeOrderedCollectionPageActivityStreams :
    gmap string JValue -> gmap string string -> Res (option OrderedCollectionPage)
}.

Definition dispatch (mgr : Manager) (alias : string)
    (m : gmap string JValue) (aliasMap : gmap string string)
    : option ActivityStreamsLikedProperty :=
  match DeserializeOrderedCollectionActivityStreams mgr m aliasMap with
  | Ok v => Some (mk v None None None JNil None alias)
  | Err _ =>
  match DeserializeCollectionActivityStreams mgr m aliasMap with
  | Ok v => Some (mk None v None None JNil None alias)
  | Err _ =>
  match DeserializeCollectionPageActivityStreams mgr m aliasMap with
  | Ok v => Some (mk None None v None JNil None alias)
  | Err _ =>
  match DeserializeOrderedCollectionPageActivityStreams mgr m aliasMap with
  | Ok v => Some (mk None None None v JNil None alias)
  | Err _ => None
  end end end end.

Definition dispatchValue (mgr : Manager) (alias : string)
    (i : JValue) (aliasMap : gmap string string)
    : option ActivityStreamsLikedProperty :=
  match i with
  | JObj m => dispatch mgr alias m aliasMap
  | _ => None
  end.

Definition DeserializeLikedProperty (mgr : Manager)
    (m : gmap string JValue) (aliasMap : gmap string string)
    : option ActivityStreamsLikedProperty * option error :=
  let alias := lookupAlias aliasMap in
  let propName := qualify alias "liked" in
  match m !! propName with
  | Some i =>
      match parseIRI i with
      | Some u => (Some (mk None None None None JNil (Some u) alias), None)
      | None =>
          match dispatchValue mgr alias i aliasMap with
          | Some this => (Some this, None)
          | None => (Some (mk None None None None i None alias), None)
          end
      end
  | None => (None, None)
  end.

Definition NewActivityStreamsLikedProperty : ActivityStreamsLikedProperty :=
  mk None None None None JNil None "".

Definition Clear (this : ActivityStreamsLikedProperty) : ActivityStreamsLikedProperty :=
  mk None None None None JNil None (alias this).

Definition IsActivityStreamsCollection (this : ActivityStreamsLikedProperty) : bool :=
  isSome (activitystreamsCollectionMember this).
Definition IsActivityStreamsCollectionPage (this : ActivityStreamsLikedProperty) : bool :=
  isSome (activitystreamsCollectionPageMember this).
Definition IsActivityStreamsOrderedCollection (this : ActivityStreamsLikedProperty) : bool :=
  isSome (activitystreamsOrderedCollectionMember this).
Definition IsActivityStreamsOrderedCollectionPage (this : ActivityStreamsLikedProperty) : bool :=
  isSome (activitystreamsOrderedCollectionPageMember this).
Definition IsIRI (this : ActivityStreamsLikedProperty) : bool :=
  isSome (iri this).

Definition HasAny (this : ActivityStreamsLikedProperty) : bool :=
  IsActivityStreamsOrderedCollection this ||
  IsActivityStreamsCollection this ||
  IsActivityStreamsCollectionPage this ||
  IsActivityStreamsOrderedCollectionPage this ||
  isSome (iri this).

Definition childContext (this : ActivityStreamsLikedProperty) : gmap string string :=
  match activitystreamsOrderedCollectionMember this with Some v => vt_JSONLDContext v | None =>
  match activitystreamsCollectionMember this with Some v => vt_JSONLDContext v | None =>
  match activitystreamsCollectionPageMember this with Some v => vt_JSONLDContext v | None =>
  match activitystreamsOrderedCollectionPageMember this with Some v => vt_JSONLDContext v | None =>
  ∅
  end end end end.

Definition JSONLDContext (this : ActivityStreamsLikedProperty) : gmap string string :=
  let m : gmap string string := {[ vocabURI := alias this ]} in
  assignAll (childContext this) m.

Definition KindIndex (this : ActivityStreamsLikedProperty) : Z :=
  if IsActivityStreamsOrderedCollection this then 0
  else if IsActivityStreamsCollection this then 1
  else if IsActivityStreamsCollectionPage this then 2
  else if IsActivityStreamsOrderedCollectionPage this then 3
  else if IsIRI this then -2
  else -1.

Definition Name (this : ActivityStreamsLikedProperty) : string := "liked".

Definition Serialize (this : ActivityStreamsLikedProperty) : Res JValue :=
  match activitystreamsOrderedCollectionMember this with Some v => serializeType v | None =>
  match activitystreamsCollectionMember this with Some v => serializeType v | None =>
  match activitystreamsCollectionPageMember this with Some v => serializeType v | None =>
  match activitystreamsOrderedCollectionPageMember this with Some v => serializeType v | None =>
  match iri this with Some u => Ok (JStr (url_String u)) | None =>
  Ok (unknown this)
  end end end end end.

Definition SetActivityStreamsCollection (v : option Collection)
    (this : ActivityStreamsLikedProperty) : ActivityStreamsLikedProperty :=
  let this := Clear this in
  mk (activitystreamsOrderedCollectionMember this) v
     (activitystreamsCollectionPageMember this)
     (activitystreamsOrderedCollectionPageMember this) (unknown this) (iri this) (alias this).

Definition SetActivityStreamsCollectionPage (v : option CollectionPage)
    (this : ActivityStreamsLikedProperty) : ActivityStreamsLikedProperty :=
  let this := Clear this in
  mk (activitystreamsOrderedCollectionMember this) (activitystreamsCollectionMember this) v
     (activitystreamsOrderedCollectionPageMember this) (unknown this) (iri this) (alias this).

Definition SetActivityStreamsOrderedCollection (v : option OrderedCollection)
    (this : ActivityStreamsLikedProperty) : ActivityStreamsLikedProperty :=
  let this := Clear this in
  mk v (activitystreamsCollectionMember this) (activitystreamsCollectionPageMember this)
     (activitystreamsOrderedCollectionPageMember this) (unknown this) (iri this) (alias this).

Definition SetActivityStreamsOrderedCollectionPage (v : option OrderedCollectionPage)
    (this : ActivityStreamsLikedProperty) : ActivityStreamsLikedProperty :=
  let this := Clear this in
  mk (activitystreamsOrderedCollectionMember this) (activitystreamsCollectionMember this)
     (activitystreamsCollectionPageMember this) v (unknown this) (iri this) (alias this).

Definition SetIRI (v : option URL)
    (this : ActivityStreamsLikedProperty) : ActivityStreamsLikedProperty :=
  let this := Clear this in
  mk (activitystreamsOrderedCollectionMember this) (activitystreamsCollectionMember this)
     (activitystreamsCollectionPageMember this)
     (activitystreamsOrderedCollectionPageMember this) (unknown this) v (alias this).

Inductive SetCall : Type :=
| CallSetActivityStreamsOrderedCollection (v : option OrderedCollection)
| CallSetActivityStreamsCollection (v : option Collection)
| CallSetActivityStreamsCollectionPage (v : option CollectionPage)
| CallSetActivityStreamsOrderedCollectionPage (v : option OrderedCollectionPage)
| CallSetIRI (v : option URL).

Definition call (this : ActivityStreamsLikedProperty) (c : SetCall)
    : ActivityStreamsLikedProperty :=
  match c with
  | CallSetActivityStreamsOrderedCollection v => SetActivityStreamsOrderedCollection v this
  | CallSetActivityStreamsCollection v => SetActivityStreamsCollection v this
  | CallSetActivityStreamsCollectionPage v => SetActivityStreamsCollectionPage v this
  | CallSetActivityStreamsOrderedCollectionPage v => SetActivityStreamsOrderedCollectionPage v this
  | CallSetIRI v => SetIRI v this
  end.

Definition calls (this : ActivityStreamsLikedProperty) (cs : list SetCall)
    : ActivityStreamsLikedProperty :=
  fold_left call cs this.

Definition argNonNil (c : SetCall) : bool :=
  match c with
  | CallSetActivityStreamsOrderedCollection v => isSome v
  | CallSetActivityStreamsCollection v => isSome v
  | CallSetActivityStreamsCollectionPage v => isSome v
  | CallSetActivityStreamsOrderedCollectionPage v => isSome v
  | CallSetIRI v => isSome v
  end.

Definition isFlags (this : ActivityStreamsLikedProperty) : list bool :=
  [ IsActivityStreamsOrderedCollection this;
    IsActivityStreamsCollection this;
    IsActivityStreamsCollectionPage this;
    IsActivityStreamsOrderedCollectionPage this;
    IsIRI this ].

Definition flagOf (c : SetCall) : nat :=
  match c with
  | CallSetActivityStreamsOrderedCollection _ => 0
  | CallSetActivityStreamsCollection _ => 1
  | CallSetActivityStreamsCollectionPage _ => 2
  | CallSetActivityStreamsOrderedCollectionPage _ => 3
  | CallSetIRI _ => 4
  end%nat.

(** *** Comparison *)

Context `{!VocabLess OrderedCollection, !VocabLess Collection,
          !VocabLess CollectionPage, !VocabLess OrderedCollectionPage}.

(** [None] stands for a run-time panic ([String] on a nil URL). *)
Definition lessIRI (u : URL) (other : option URL) : option bool :=
  match other with
  | Some u' => Some (String.ltb (url_String u) (url_String u'))
  | None => None
  end.

Definition LessThan (this o : ActivityStreamsLikedProperty) : option bool :=
  let idx1 := KindIndex this in
  let idx2 := KindIndex o in
  if (idx1 <? idx2)%Z then Some true
  else if (idx1 >? idx2)%Z then Some false
  else
  match activitystreamsOrderedCollectionMember this with
  | Some v => Some (vt_LessThan v (activitystreamsOrderedCollectionMember o)) | None =>
  match activitystreamsCollectionMember this with
  | Some v => Some (vt_LessThan v (activitystreamsCollectionMember o)) | None =>
  match activitystreamsCollectionPageMember this with
  | Some v => Some (vt_LessThan v (activitystreamsCollectionPageMember o)) | None =>
  match activitystreamsOrderedCollectionPageMember this with
  | Some v => Some (vt_LessThan v (activitystreamsOrderedCollectionPageMember o)) | None =>
  match iri this with
  | Some u => lessIRI u (iri o) | None =>
  Some false
  end end end end end.

(** *** The value as a [vocab.Type] *)

Class TypeViews (VType : Type) := {
  asOrderedCollection : VType -> option OrderedCollection;
  asCollection : VType -> option Collection;
  asCollectionPage : VType -> option CollectionPage;
  asOrderedCollectionPage : VType -> option OrderedCollectionPage;
  ofOrderedCollection : OrderedCollection -> VType;
  ofCollection : Collection -> VType;
  ofCollectionPage : CollectionPage -> VType;
  ofOrderedCollectionPage : OrderedCollectionPage -> VType
}.

Context {VType : Type} `{!TypeViews VType}.

Definition GetType (this : ActivityStreamsLikedProperty) : option VType :=
  match activitystreamsOrderedCollectionMember this with
  | Some v => Some (ofOrderedCollection v) | None =>
  match activitystreamsCollectionMember this with Some v => Some (ofCollection v) | None =>
  match activitystreamsCollectionPageMember this with Some v => Some (ofCollectionPage v) | None =>
  match activitystreamsOrderedCollectionPageMember this with
  | Some v => Some (ofOrderedCollectionPage v) | None =>
  None
  end end end end.

Definition assert {X} (view : VType -> option X) (t : option VType) : option X :=
  match t with
  | Some d => view d
  | None => None
  end.

Definition SetType (t : option VType) (this : ActivityStreamsLikedProperty)
    : ActivityStreamsLikedProperty * option SetTypeError :=
  match assert asOrderedCollection t with
  | Some v => (SetActivityStreamsOrderedCollection (Some v) this, None) | None =>
  match assert asCollection t with
  | Some v => (SetActivityStreamsCollection (Some v) this, None) | None =>
  match assert asCollectionPage t with
  | Some v => (SetActivityStreamsCollectionPage (Some v) this, None) | None =>
  match assert asOrderedCollectionPage t with
  | Some v => (SetActivityStreamsOrderedCollectionPage (Some v) this, None) | None =>
  (this, Some ErrIllegalType)
  end end end end.

Definition slotsUsed (this : ActivityStreamsLikedProperty) : nat :=
  length (List.filter (fun b => b) (isFlags this))
  + match unknown this with JNil => 0 | _ => 1 end.

End Defs.
Arguments ActivityStreamsLikedProperty {_} _ _ _ _.
Arguments Manager _ _ _ _ : clear implicits.
Arguments SetCall {_} _ _ _ _.
End Liked.

(** ** The "Question" type *)
Module Question.

(** The fields of the struct [ActivityStreamsQuestion] that hold a
    property, named as in the source. *)
Inductive Field : Type :=
| ActivityStreamsActor | ActivityStreamsAltitude | ActivityStreamsAnyOf
| ActivityStreamsAttachment | ActivityStreamsAttributedTo | ActivityStreamsAudience
| ActivityStreamsBcc | ActivityStreamsBto | ActivityStreamsCc | ActivityStreamsClosed
| ActivityStreamsContent | ActivityStreamsContext | ActivityStreamsDuration
| ActivityStreamsEndTime | ActivityStreamsGenerator | ActivityStreamsIcon
| ActivityStreamsId | ActivityStreamsImage | ActivityStreamsInReplyTo
| ActivityStreamsInstrument | ActivityStreamsLikes | ActivityStreamsLocation
| ActivityStreamsMediaType | ActivityStreamsName | ActivityStreamsOneOf
| ActivityStreamsOrigin | ActivityStreamsPreview | ActivityStreamsPublished
| ActivityStreamsReplies | ActivityStreamsResult | ActivityStreamsShares
| ActivityStreamsStartTime | ActivityStreamsSummary | ActivityStreamsTag
| ActivityStreamsTarget | ActivityStreamsTo | ActivityStreamsType
| ActivityStreamsUpdated | ActivityStreamsUrl.

(** The fields in the order in which the struct declares them, which is
    also the order of every per-property block of the methods. *)
Definition declared : list Field :=
  [
    ActivityStreamsActor; ActivityStreamsAltitude; ActivityStreamsAnyOf;
    ActivityStreamsAttachment; ActivityStreamsAttributedTo; ActivityStreamsAudience;
    ActivityStreamsBcc; ActivityStreamsBto; ActivityStreamsCc; ActivityStreamsClosed;
    ActivityStreamsContent; ActivityStreamsContext; ActivityStreamsDuration;
    ActivityStreamsEndTime; ActivityStreamsGenerator; ActivityStreamsIcon;
    ActivityStreamsId; ActivityStreamsImage; ActivityStreamsInReplyTo;
    ActivityStreamsInstrument; ActivityStreamsLikes; ActivityStreamsLocation;
    ActivityStreamsMediaType; ActivityStreamsName; ActivityStreamsOneOf;
    ActivityStreamsOrigin; ActivityStreamsPreview; ActivityStreamsPublished;
    ActivityStreamsReplies; ActivityStreamsResult; ActivityStreamsShares;
    ActivityStreamsStartTime; ActivityStreamsSummary; ActivityStreamsTag;
    ActivityStreamsTarget; ActivityStreamsTo; ActivityStreamsType;
    ActivityStreamsUpdated; ActivityStreamsUrl
  ].

Definition fieldIndex (f : Field) : nat :=
  match f with
  | ActivityStreamsActor => 0
  | ActivityStreamsAltitude => 1
  | ActivityStreamsAnyOf => 2
  | ActivityStreamsAttachment => 3
  | ActivityStreamsAttributedTo => 4
  | ActivityStreamsAudience => 5
  | ActivityStreamsBcc => 6
  | ActivityStreamsBto => 7
  | ActivityStreamsCc => 8
  | ActivityStreamsClosed => 9
  | ActivityStreamsContent => 10
  | ActivityStreamsContext => 11
  | ActivityStreamsDuration => 12
  | ActivityStreamsEndTime => 13
  | ActivityStreamsGenerator => 14
  | ActivityStreamsIcon => 15
  | ActivityStreamsId => 16
  | ActivityStreamsImage => 17
  | ActivityStreamsInReplyTo => 18
  | ActivityStreamsInstrument => 19
  | ActivityStreamsLikes => 20
  | ActivityStreamsLocation => 21
  | ActivityStreamsMediaType => 22
  | ActivityStreamsName => 23
  | ActivityStreamsOneOf => 24
  | ActivityStreamsOrigin => 25
  | ActivityStreamsPreview => 26
  | ActivityStreamsPublished => 27
  | ActivityStreamsReplies => 28
  | ActivityStreamsResult => 29
  | ActivityStreamsShares => 30
  | ActivityStreamsStartTime => 31
  | ActivityStreamsSummary => 32
  | ActivityStreamsTag => 33
  | ActivityStreamsTarget => 34
  | ActivityStreamsTo => 35
  | ActivityStreamsType => 36
  | ActivityStreamsUpdated => 37
  | ActivityStreamsUrl => 38
  end.

(** The keys that the unknown-deserialization loop of [DeserializeQuestion]
    skips, in the order of its chain of comparisons. *)
Definition knownKeys : list string :=
  [
    "actor"; "altitude"; "anyOf"; "attachment"; "attributedTo"; "audience"; "bcc";
    "bto"; "cc"; "closed"; "content"; "contentMap"; "context"; "duration"; "endTime";
    "generator"; "icon"; "id"; "image"; "inReplyTo"; "instrument"; "likes"; "location";
    "mediaType"; "name"; "nameMap"; "oneOf"; "origin"; "preview"; "published";
    "replies"; "result"; "shares"; "startTime"; "summary"; "summaryMap"; "tag";
    "target"; "to"; "type"; "updated"; "url"
  ].

Definition isKnownKey (k : string) : bool :=
  existsb (String.eqb k) knownKeys.

(** [strings.TrimPrefix] *)
Definition TrimPrefix (s prefix : string) : string :=
  if String.prefix prefix s
  then String.substring (String.length prefix) (String.length s - String.length prefix) s
  else s.

(** The methods of a property ([vocab.ActivityStreamsActorProperty], ...)
    that the type calls. *)
Class Property (P : Type) := {
  prop_JSONLDContext : P -> gmap string string;
  prop_LessThan : P -> P -> bool;
  prop_Name : P -> string;
  prop_Serialize : P -> Res JValue
}.

Section Defs.
(** The thirty-nine property interfaces offer the same methods to this
    file; one carrier [P] stands for all of them. *)
Context {P : Type} `{!Property P}.

Record ActivityStreamsQuestion : Type := mk {
  fields : Field -> option P;
  alias : string;
  unknown : gmap string JValue
}.

(** [mgr.Deserialize<Name>PropertyActivityStreams()], indexed by the field
    the result is stored in. *)
Definition Manager : Type :=
  Field -> gmap string JValue -> gmap string string -> Res (option P).

(** [this.<field> = p] *)
Definition setField (f : Field) (p : option P) (this : ActivityStreamsQuestion)
    : ActivityStreamsQuestion :=
  mk (fun g => if Nat.eqb (fieldIndex f) (fieldIndex g) then p else fields this g)
     (alias this) (unknown this).

(** The check of the "type" key; [None] when it falls through. *)
Definition checkType (m : gmap string JValue) (aliasPrefix : string) : option error :=
  match m !! "type" with
  | None => Some ErrNoType
  | Some (JStr typeString) =>
      let typeName := TrimPrefix typeString aliasPrefix in
      if String.eqb typeName "Question" then None else Some (ErrNotOfType typeName)
  | Some (JArr arrType) =>
      let found :=
        existsb (fun elemVal =>
                   match elemVal with
                   | JStr typeString =>
                       String.eqb (TrimPrefix typeString aliasPrefix) "Question"
                   | _ => false
                   end) arrType in
      if found then None else Some ErrCouldNotFind
  | Some typeValue => Some (ErrUnrecognizedType typeValue)
  end.

(** Known property deserialization: one block per field, stopping at the
    first error. *)
Fixpoint deserializeKnown (mgr : Manager) (fs : list Field)
    (m : gmap string JValue) (aliasMap : gmap string string)
    (this : ActivityStreamsQuestion) : Res ActivityStreamsQuestion :=
  match fs with
  | [] => Ok this
  | f :: rest =>
      match mgr f m aliasMap with
      | Err e => Err e
      | Ok p =>
          deserializeKnown mgr rest m aliasMap
            (if isSome p then setField f p this else this)
      end
  end.

(** Unknown deserialization: [for k, v := range m { ...; this.unknown[k] = v }] *)
Definition deserializeUnknown (m : gmap string JValue)
    (unknown : gmap string JValue) : gmap string JValue :=
  map_fold (fun k v acc => if isKnownKey k then acc else <[k:=v]> acc) unknown m.

Definition DeserializeQuestion (mgr : Manager)
    (m : gmap string JValue) (aliasMap : gmap string string)
    : Res ActivityStreamsQuestion :=
  let aliasPrefix :=
    match aliasMap !! vocabURI with
    | Some a => a +:+ ":"
    | None => ""
    end in
  let this := mk (fun _ => None) (lookupAlias aliasMap) ∅ in
  match checkType m aliasPrefix with
  | Some e => Err e
  | None =>
      match deserializeKnown mgr declared m aliasMap this with
      | Err e => Err e
      | Ok this =>
          Ok (mk (fields this) (alias this) (deserializeUnknown m (unknown this)))
      end
  end.

Definition GetUnknownProperties (this : ActivityStreamsQuestion) : gmap string JValue :=
  unknown this.

Definition helperJSONLDContext (i : option P) (toMerge : gmap string string)
    : gmap string string :=
  match i with
  | None => toMerge
  | Some p => assignAll (prop_JSONLDContext p) toMerge
  end.

Definition JSONLDContext (this : ActivityStreamsQuestion) : gmap string string :=
  fold_left (fun m f => helperJSONLDContext (fields this f) m) declared
            ({[ vocabURI := alias this ]} : gmap string string).

(** One "Compare property" block of [LessThan]: [Some b] when the block
    returns [b], [None] when control reaches the next block.  The third
    test is the source's [rhs != nil && rhs == nil]. *)
Definition compareProperty (lhs rhs : option P) : option bool :=
  match lhs, rhs with
  | Some l, Some r =>
      if prop_LessThan l r then Some true
      else if prop_LessThan r l then Some false
      else None
  | _, _ =>
      if negb (isSome lhs) && isSome rhs then Some true
      else if isSome rhs && negb (isSome rhs) then Some false
      else None
  end.

Fixpoint lessThanFrom (fs : list Field) (this o : ActivityStreamsQuestion) : bool :=
  match fs with
  | [] =>
      if (size (unknown this) <? size (GetUnknownProperties o))%nat then true
      else if (size (GetUnknownProperties o) <? size (unknown this))%nat then false
      else false
  | f :: rest =>
      match compareProperty (fields this f) (fields o f) with
      | Some b => b
      | None => lessThanFrom rest this o
      end
  end.

Definition LessThan (this o : ActivityStreamsQuestion) : bool :=
  lessThanFrom declared this o.

(** The "Maybe serialize property" blocks. *)
Fixpoint serializeKnown (fs : list Field) (this : ActivityStreamsQuestion)
    (m : gmap string JValue) : Res (gmap string JValue) :=
  match fs with
  | [] => Ok m
  | f :: rest =>
      match fields this f with
      | Some p =>
          match prop_Serialize p with
          | Err e => Err e
          | Ok JNil => serializeKnown rest this m
          | Ok i => serializeKnown rest this (<[prop_Name p := i]> m)
          end
      | None => serializeKnown rest this m
      end
  end.

(** [for k, v := range this.unknown { if _, has := m[k]; !has { m[k] = v } }] *)
Definition serializeUnknown (unknown m : gmap string JValue) : gmap string JValue :=
  map_fold (fun k v acc => if isSome (acc !! k) then acc else <[k:=v]> acc) m unknown.

Definition typeEntry (this : ActivityStreamsQuestion) : gmap string JValue :=
  {[ "type" := JStr (qualify (alias this) "Question") ]}.

Definition Serialize (this : ActivityStreamsQuestion) : Res (gmap string JValue) :=
  match serializeKnown declared this (typeEntry this) with
  | Err e => Err e
  | Ok m => Ok (serializeUnknown (unknown this) m)
  end.

End Defs.
Arguments ActivityStreamsQuestion : clear implicits.
Arguments Manager : clear implicits.

(** *** The static tables of the type *)

(** [other.GetTypeName()] of a [vocab.Type]. *)
Class HasTypeName (T : Type) := {
  typeNameOf : T -> string
}.

Definition ActivityStreamsQuestionExtends {T} `{!HasTypeName T} (other : T) : bool :=
  let extensions := ["Activity"; "IntransitiveActivity"; "Object"] in
  existsb (fun ext => String.eqb ext (typeNameOf other)) extensions.

Definition QuestionIsExtendedBy {T} `{!HasTypeName T} (other : T) : bool :=
  false.

Definition IsOrExtendsQuestion {T} `{!HasTypeName T} (other : T) : bool :=
  if String.eqb (typeNameOf other) "Question" then true
  else QuestionIsExtendedBy other.

Definition QuestionIsDisjointWith {T} `{!HasTypeName T} (other : T) : bool :=
  let disjointWith := ["Link"; "Mention"] in
  existsb (fun disjoint => String.eqb disjoint (typeNameOf other)) disjointWith.

Definition GetTypeName {P} (this : ActivityStreamsQuestion P) : string := "Question".

Definition IsExtending {P T} `{!HasTypeName T}
    (this : ActivityStreamsQuestion P) (other : T) : bool :=
  ActivityStreamsQuestionExtends other.

Definition VocabularyURI {P} (this : ActivityStreamsQuestion P) : string :=
  "https://www.w3.org/TR/activitystreams-vocabulary".

(** A Question is a [vocab.Type] itself. *)
#[global] Instance questionTypeName {P} : HasTypeName (ActivityStreamsQuestion P) :=
  {| typeNameOf := GetTypeName |}.

End Question.

(** ** The specification's vocabulary

    Definitions that follow the wording of the specification, against which
    the definitions above are compared. *)
Module Spec.

(** How many of the predicates answer true. *)
Definition countTrue (flags : list bool) : nat :=
  length (List.filter (fun b => b) flags).

(** "Exactly one is true and all the others are false." *)
Definition exactlyOne (flags : list bool) : Prop := countTrue flags = 1%nat.

(** "Accepting the first one that succeeds without error." *)
Fixpoint firstSuccess {A} (attempts : list (Res A)) : option A :=
  match attempts with
  | [] => None
  | Ok v :: _ => Some v
  | Err _ :: rest => firstSuccess rest
  end.

Definition andThen {A B} (f : A -> B) (r : Res A) : Res B :=
  match r with
  | Ok v => Ok (f v)
  | Err e => Err e
  end.

(** "Insert if absent": the first writer of a key wins. *)
Definition insertIfAbsent (k v : string) (m : gmap string string) : gmap string string :=
  match m !! k with
  | Some _ => m
  | None => <[k:=v]> m
  end.

(** The prefix that [DeserializeQuestion] strips from a type name. *)
Definition aliasPrefixOf (aliasMap : gmap string string) : string :=
  match aliasMap !! vocabURI with
  | Some a => a +:+ ":"
  | None => ""
  end.

(** Does the string contain a colon?  A type name without one cannot start
    with an alias prefix. *)
Fixpoint hasColon (s : string) : bool :=
  match s with
  | EmptyString => false
  | String c tl => Ascii.eqb c ":"%char || hasColon tl
  end.

(** "A string equal (after stripping the alias prefix) to Question". *)
Definition namesQuestion (aliasPrefix : string) (v : JValue) : Prop :=
  exists s, v = JStr s /\ Question.TrimPrefix s aliasPrefix = "Question".

(** The four ways in which the "type" key fails the check. *)
Definition typeRejected (m : gmap string JValue) (aliasPrefix : string) : Prop :=
  m !! "type" = None
  \/ (exists s, m !! "type" = Some (JStr s)
               /\ Question.TrimPrefix s aliasPrefix <> "Question")
  \/ (exists l, m !! "type" = Some (JArr l)
               /\ forall x, x ∈ l -> ~ namesQuestion aliasPrefix x)
  \/ (exists v, m !! "type" = Some v
               /\ (forall s, v <> JStr s) /\ (forall l, v <> JArr l)).

Section WithCollaborators.
Context `{NetUrl}.
Context {Link Collection CollectionPage Mention
         OrderedCollection OrderedCollectionPage : Type}.

(** "A string that parses as a URL with a non-empty scheme." *)
Definition schemedIRI (i : JValue) (u : URL) : Prop :=
  exists s, i = JStr s /\ url_Parse s = Ok u /\ url_Scheme u <> "".

(** The candidate kinds of "partOf", each tried on the nested map, in the
    declared order Link, Collection, CollectionPage, Mention,
    OrderedCollection, OrderedCollectionPage. *)
Definition partOfAttempts
    (mgr : PartOf.Manager Link Collection CollectionPage Mention
                          OrderedCollection OrderedCollectionPage)
    (alias : string) (m : gmap string JValue) (aliasMap : gmap string string)
    : list (Res (PartOf.ActivityStreamsPartOfProperty
                   Link Collection CollectionPage Mention
                   OrderedCollection OrderedCollectionPage)) :=
  [ andThen (fun v => PartOf.mk v None None None None None JNil None alias)
      (PartOf.DeserializeLinkActivityStreams mgr m aliasMap);
    andThen (fun v => PartOf.mk None v None None None None JNil None alias)
      (PartOf.DeserializeCollectionActivityStreams mgr m aliasMap);
    andThen (fun v => PartOf.mk None None v None None None JNil None alias)
      (PartOf.DeserializeCollectionPageActivityStreams mgr m aliasMap);
    andThen (fun v => PartOf.mk None None None v None None JNil None alias)
      (PartOf.DeserializeMentionActivityStreams mgr m aliasMap);
    andThen (fun v => PartOf.mk None None None None v None JNil None alias)
      (PartOf.DeserializeOrderedCollectionActivityStreams mgr m aliasMap);
    andThen (fun v => PartOf.mk None None None None None v JNil None alias)
      (PartOf.DeserializeOrderedCollectionPageActivityStreams mgr m aliasMap) ].

(** The candidate kinds of "liked" in their declared order
    OrderedCollection, Collection, CollectionPage, OrderedCollectionPage. *)
Definition likedAttempts
    (mgr : Liked.Manager OrderedCollection Collection CollectionPage
                         OrderedCollectionPage)
    (alias : string) (m : gmap string JValue) (aliasMap : gmap string string)
    : list (Res (Liked.ActivityStreamsLikedProperty
                   OrderedCollection Collection CollectionPage
                   OrderedCollectionPage)) :=
  [ andThen (fun v => Liked.mk v None None None JNil None alias)
      (Liked.DeserializeOrderedCollectionActivityStreams mgr m aliasMap);
    andThen (fun v => Liked.mk None v None None JNil None alias)
      (Liked.DeserializeCollectionActivityStreams mgr m aliasMap);
    andThen (fun v => Liked.mk None None v None JNil None alias)
      (Liked.DeserializeCollectionPageActivityStreams mgr m aliasMap);
    andThen (fun v => Liked.mk None None None v JNil None alias)
      (Liked.DeserializeOrderedCollectionPageActivityStreams mgr m aliasMap) ].

(** "A map accepted by some candidate deserializer" of "partOf". *)
Definition partOfAccepted
    (mgr : PartOf.Manager Link Collection CollectionPage Mention
                          OrderedCollection OrderedCollectionPage)
    (i : JValue) (aliasMap : gmap string string) : Prop :=
  exists m, i = JObj m /\
    (is_Err (PartOf.DeserializeLinkActivityStreams mgr m aliasMap) = false
     \/ is_Err (PartOf.DeserializeCollectionActivityStreams mgr m aliasMap) = false
     \/ is_Err (PartOf.DeserializeCollectionPageActivityStreams mgr m aliasMap) = false
     \/ is_Err (PartOf.DeserializeMentionActivityStreams mgr m aliasMap) = false
     \/ is_Err (PartOf.DeserializeOrderedCollectionActivityStreams mgr m aliasMap) = false
     \/ is_Err (PartOf.DeserializeOrderedCollectionPageActivityStreams mgr m aliasMap)
        = false).

End WithCollaborators.
End Spec.

(** ** Concrete collaborators

    Instances of the interfaces above on which the definitions can be run:
    a URL library, a vocabulary type with typed deserializers, and a
    property type for the fields of Question. *)
Module Model.

(** *** net/url

    The scheme handling of Go's [url.Parse]: [getScheme] splits the scheme
    off at the first colon (letters anywhere, digits and [+-.] after the
    first byte, any other byte before a colon means no scheme, a leading
    colon is an error) and [Parse] lower-cases it.  What follows the colon
    is kept as it is; [String] puts the two together again. *)
Definition isAlpha (c : ascii) : bool :=
  let n := nat_of_ascii c in
  (((97 <=? n) && (n <=? 122)) || ((65 <=? n) && (n <=? 90)))%nat.

Definition isSchemeExtra (c : ascii) : bool :=
  let n := nat_of_ascii c in
  (((48 <=? n) && (n <=? 57)) || (n =? 43) || (n =? 45) || (n =? 46))%nat.

Definition lowerByte (c : ascii) : ascii :=
  let n := nat_of_ascii c in
  if ((65 <=? n) && (n <=? 90))%nat then ascii_of_nat (n + 32) else c.

Fixpoint ToLower (s : string) : string :=
  match s with
  | EmptyString => EmptyString
  | String c tl => String (lowerByte c) (ToLower tl)
  end.

Definition consScheme (c : ascii) (r : Res (option (string * string)))
    : Res (option (string * string)) :=
  match r with
  | Ok (Some (scheme, path)) => Ok (Some (String c scheme, path))
  | other => other
  end.

(** [Ok None] stands for the result [("", rawURL, nil)]. *)
Fixpoint getScheme (i : nat) (rawURL : string) : Res (option (string * string)) :=
  match rawURL with
  | EmptyString => Ok None
  | String c tl =>
      if isAlpha c then consScheme c (getScheme (S i) tl)
      else if isSchemeExtra c then
        if (i =? 0)%nat then Ok None else consScheme c (getScheme (S i) tl)
      else if Ascii.eqb c ":"%char then
        if (i =? 0)%nat then Err (ErrExternal "missing protocol scheme")
        else Ok (Some (EmptyString, tl))
      else Ok None
  end.

Record ModelURL : Type := { Scheme : string; Rest : string }.

Definition Parse (rawURL : string) : Res ModelURL :=
  match getScheme 0 rawURL with
  | Err e => Err e
  | Ok None => Ok {| Scheme := ""; Rest := rawURL |}
  | Ok (Some (scheme, rest)) => Ok {| Scheme := ToLower scheme; Rest := rest |}
  end.

Definition String_ (u : ModelURL) : string :=
  if (0 <? String.length (Scheme u))%nat then Scheme u +:+ ":" +:+ Rest u else Rest u.

#[export] Instance modelUrl : NetUrl :=
  {| URL := ModelURL; url_Parse := Parse; url_Scheme := Scheme; url_String := String_ |}.

(** *** A vocabulary type

    An object remembers the alias it was read under and the map it was read
    from; its context is the namespace entry for that alias. *)
Record Obj : Type := { objAlias : string; objBody : gmap string JValue }.

#[export] Instance objVocab : VocabType Obj :=
  {| vt_JSONLDContext := fun o => {[ vocabURI := objAlias o ]};
     vt_Serialize := fun o => Ok (objBody o) |}.

(** A typed deserializer that accepts the maps whose "type" is one of
    [accepted]. *)
Definition deserializeTyped (accepted : list string)
    (m : gmap string JValue) (aliasMap : gmap string string) : Res (option Obj) :=
  match m !! "type" with
  | Some (JStr t) =>
      if existsb (String.eqb t) accepted
      then Ok (Some {| objAlias := lookupAlias aliasMap; objBody := m |})
      else Err (ErrNotOfType t)
  | _ => Err ErrNoType
  end.

Definition partOfManager : PartOf.Manager Obj Obj Obj Obj Obj Obj :=
  {| PartOf.DeserializeLinkActivityStreams := deserializeTyped ["Link"];
     PartOf.DeserializeCollectionActivityStreams := deserializeTyped ["Collection"];
     PartOf.DeserializeCollectionPageActivityStreams := deserializeTyped ["CollectionPage"];
     PartOf.DeserializeMentionActivityStreams := deserializeTyped ["Mention"];
     PartOf.DeserializeOrderedCollectionActivityStreams :=
       deserializeTyped ["OrderedCollection"];
     PartOf.DeserializeOrderedCollectionPageActivityStreams :=
       deserializeTyped ["OrderedCollectionPage"] |}.

(** Here the Collection deserializer also takes an OrderedCollection, so
    that such a map is accepted by two candidates of "liked". *)
Definition likedManager : Liked.Manager Obj Obj Obj Obj :=
  {| Liked.DeserializeOrderedCollectionActivityStreams :=
       deserializeTyped ["OrderedCollection"];
     Liked.DeserializeCollectionActivityStreams :=
       deserializeTyped ["Collection"; "OrderedCollection"];
     Liked.DeserializeCollectionPageActivityStreams := deserializeTyped ["CollectionPage"];
     Liked.DeserializeOrderedCollectionPageActivityStreams :=
       deserializeTyped ["OrderedCollectionPage"] |}.

(** *** A property of Question

    A property that keeps the raw value found under its key and is ordered
    by a rank. *)
Record RawProperty : Type := { rawName : string; rawValue : JValue; rawRank : nat }.

#[export] Instance rawProperty : Question.Property RawProperty :=
  {| Question.prop_JSONLDContext := fun _ => {[ vocabURI := "" ]};
     Question.prop_LessThan := fun p q => (rawRank p <? rawRank q)%nat;
     Question.prop_Name := rawName;
     Question.prop_Serialize := fun p => Ok (rawValue p) |}.

Definition propertyNames : list string :=
  [ "actor"; "altitude"; "anyOf"; "attachment"; "attributedTo"; "audience"; "bcc";
    "bto"; "cc"; "closed"; "content"; "context"; "duration"; "endTime"; "generator";
    "icon"; "id"; "image"; "inReplyTo"; "instrument"; "likes"; "location";
    "mediaType"; "name"; "oneOf"; "origin"; "preview"; "published"; "replies";
    "result"; "shares"; "startTime"; "summary"; "tag"; "target"; "to"; "type";
    "updated"; "url" ].

Definition propertyName (f : Question.Field) : string :=
  nth (Question.fieldIndex f) propertyNames "".

(** Absent key: no property and no error; present key: the raw value. *)
Definition questionManager : Question.Manager RawProperty :=
  fun f m aliasMap =>
    let key := qualify (lookupAlias aliasMap) (propertyName f) in
    match m !! key with
    | Some i => Ok (Some {| rawName := key; rawValue := i; rawRank := 0 |})
    | None => Ok None
    end.

(** *** Comparison and dynamic types of the vocabulary type

    Objects are ordered by the number of entries of their body; a
    [vocab.Type] value is an object tagged with the one interface it
    satisfies. *)
#[export] Instance objLess : VocabLess Obj :=
  {| vt_LessThan := fun o other =>
       match other with
       | Some o' => (size (objBody o) <? size (objBody o'))%nat
       | None => false
       end |}.

Record Dyn : Type := { dynInterface : string; dynObj : Obj }.

Definition view (name : string) (d : Dyn) : option Obj :=
  if String.eqb (dynInterface d) name then Some (dynObj d) else None.

Definition wrap (name : string) (o : Obj) : Dyn :=
  {| dynInterface := name; dynObj := o |}.

#[export] Instance partOfViews : PartOf.TypeViews (Link:=Obj) (Collection:=Obj)
    (CollectionPage:=Obj) (Mention:=Obj) (OrderedCollection:=Obj)
    (OrderedCollectionPage:=Obj) Dyn :=
  {| PartOf.asLink := view "Link";
     PartOf.asCollection := view "Collection";
     PartOf.asCollectionPage := view "CollectionPage";
     PartOf.asMention := view "Mention";
     PartOf.asOrderedCollection := view "OrderedCollection";
     PartOf.asOrderedCollectionPage := view "OrderedCollectionPage";
     PartOf.ofLink := wrap "Link";
     PartOf.ofCollection := wrap "Collection";
     PartOf.ofCollectionPage := wrap "CollectionPage";
     PartOf.ofMention := wrap "Mention";
     PartOf.ofOrderedCollection := wrap "OrderedCollection";
     PartOf.ofOrderedCollectionPage := wrap "OrderedCollectionPage" |}.

#[export] Instance likedViews : Liked.TypeViews (OrderedCollection:=Obj)
    (Collection:=Obj) (CollectionPage:=Obj) (OrderedCollectionPage:=Obj) Dyn :=
  {| Liked.asOrderedCollection := view "OrderedCollection";
     Liked.asCollection := view "Collection";
     Liked.asCollectionPage := view "CollectionPage";
     Liked.asOrderedCollectionPage := view "OrderedCollectionPage";
     Liked.ofOrderedCollection := wrap "OrderedCollection";
     Liked.ofCollection := wrap "Collection";
     Liked.ofCollectionPage := wrap "CollectionPage";
     Liked.ofOrderedCollectionPage := wrap "OrderedCollectionPage" |}.

(** A [vocab.Type] of which only the name is of interest. *)
#[export] Instance namedType : Question.HasTypeName string :=
  {| Question.typeNameOf := fun name => name |}.

End Model.

(** ** Concrete inputs *)
Module Inputs.
Import Model.

Definition freshPartOf : PartOf.ActivityStreamsPartOfProperty Obj Obj Obj Obj Obj Obj :=
  PartOf.NewActivityStreamsPartOfProperty.

Definition freshLiked : Liked.ActivityStreamsLikedProperty Obj Obj Obj Obj :=
  Liked.NewActivityStreamsLikedProperty.

Definition exampleURL : @URL modelUrl :=
  {| Scheme := "https"; Rest := "//example.com/coll" |}.

(** What [url.Parse] makes of "HTTP://ex.example/x". *)
Definition lowerCasedURL : @URL modelUrl :=
  {| Scheme := "http"; Rest := "//ex.example/x" |}.

(** A Link that was read under the alias "as". *)
Definition aliasedLink : Obj := {| objAlias := "as"; objBody := {[ "type" := JStr "as:Link" ]} |}.

(** [p := NewActivityStreamsPartOfProperty(); p.SetActivityStreamsLink(aliasedLink)] *)
Definition partOfWithAliasedLink : PartOf.ActivityStreamsPartOfProperty Obj Obj Obj Obj Obj Obj :=
  PartOf.SetActivityStreamsLink (Some aliasedLink) freshPartOf.

(** [{"partOf": "https://example.com/coll"}] *)
Definition partOfIRI : gmap string JValue :=
  {[ "partOf" := JStr "https://example.com/coll" ]}.

(** [{"partOf": "HTTP://ex.example/x"}] *)
Definition partOfUpperScheme : gmap string JValue :=
  {[ "partOf" := JStr "HTTP://ex.example/x" ]}.

(** [{"partOf": "file.txt"}] *)
Definition partOfBareName : gmap string JValue :=
  {[ "partOf" := JStr "file.txt" ]}.

(** [{"partOf": 5}] *)
Definition partOfNumber : gmap string JValue :=
  {[ "partOf" := JNum 5 ]}.

(** [{"partOf": {"type": "Collection"}}] *)
Definition partOfCollection : gmap string JValue :=
  {[ "partOf" := JObj {[ "type" := JStr "Collection" ]} ]}.

(** [{"type": "OrderedCollection", "totalItems": 5}] *)
Definition orderedCollectionMap : gmap string JValue :=
  {[ "type" := JStr "OrderedCollection"; "totalItems" := JNum 5 ]}.

(** [{"liked": {"type": "OrderedCollection", "totalItems": 5}}] *)
Definition likedOrderedCollection : gmap string JValue :=
  {[ "liked" := JObj orderedCollectionMap ]}.

(** [{"liked": "https://example.com/coll"}] *)
Definition likedIRI : gmap string JValue :=
  {[ "liked" := JStr "https://example.com/coll" ]}.

(** [{"liked": [1]}] *)
Definition likedArray : gmap string JValue :=
  {[ "liked" := JArr [JNum 1] ]}.

(** [{"type": "Question", "foo": "bar"}] *)
Definition questionFoo : gmap string JValue :=
  {[ "type" := JStr "Question"; "foo" := JStr "bar" ]}.

(** [{"type": ["Note", "as:Question"]}] read with the alias "as". *)
Definition questionMultiTyped : gmap string JValue :=
  {[ "type" := JArr [JStr "Note"; JStr "as:Question"] ]}.

Definition asAlias : gmap string string := {[ vocabURI := "as" ]}.

Definition someProperty : RawProperty :=
  {| rawName := "p"; rawValue := JStr "v"; rawRank := 0 |}.

(** A Question whose only property is "actor". *)
Definition questionWithActor : Question.ActivityStreamsQuestion RawProperty :=
  Question.setField Question.ActivityStreamsActor (Some someProperty)
    (Question.mk (fun _ => None) "" ∅).

(** A Question whose only property is "altitude". *)
Definition questionWithAltitude : Question.ActivityStreamsQuestion RawProperty :=
  Question.setField Question.ActivityStreamsAltitude (Some someProperty)
    (Question.mk (fun _ => None) "" ∅).

(** A Collection as a [vocab.Type]. *)
Definition collectionValue : Dyn :=
  {| dynInterface := "Collection";
     dynObj := {| objAlias := ""; objBody := {[ "type" := JStr "Collection" ]} |} |}.

(** A Note as a [vocab.Type]: none of the kinds of "partOf" or "liked". *)
Definition noteValue : Dyn :=
  {| dynInterface := "Note";
     dynObj := {| objAlias := ""; objBody := {[ "type" := JStr "Note" ]} |} |}.

(** A "partOf" holding the IRI https://example.com/coll. *)
Definition partOfHoldingIRI : PartOf.ActivityStreamsPartOfProperty Obj Obj Obj Obj Obj Obj :=
  PartOf.SetIRI (Some exampleURL) freshPartOf.

(** A "partOf" holding the IRI http://ex.example/x. *)
Definition partOfHoldingOtherIRI
    : PartOf.ActivityStreamsPartOfProperty Obj Obj Obj Obj Obj Obj :=
  PartOf.SetIRI (Some lowerCasedURL) freshPartOf.

(** A "liked" holding the IRI https://example.com/coll. *)
Definition likedHoldingIRI : Liked.ActivityStreamsLikedProperty Obj Obj Obj Obj :=
  Liked.SetIRI (Some exampleURL) freshLiked.

(** [{"type": "Question", "actor": "https://example.com/a", "foo": "bar"}] *)
Definition questionWithKnownAndUnknown : gmap string JValue :=
  {[ "type" := JStr "Question"; "actor" := JStr "https://example.com/a";
     "foo" := JStr "bar" ]}.

(** A Question with no property set. *)
Definition emptyQuestion : Question.ActivityStreamsQuestion RawProperty :=
  Question.mk (fun _ => None) "" ∅.

(** [{"type": "Question", "contentMap": "x", "foo": "bar"}] *)
Definition questionContentMap : gmap string JValue :=
  {[ "type" := JStr "Question"; "contentMap" := JStr "x"; "foo" := JStr "bar" ]}.

(** A manager whose "generator" deserializer fails, and whose "location"
    deserializer fails with another error. *)
Definition failingManager : Question.Manager RawProperty :=
  fun f m aliasMap =>
    match f with
    | Question.ActivityStreamsGenerator => Err (ErrExternal "generator")
    | Question.ActivityStreamsLocation => Err (ErrExternal "location")
    | _ => questionManager f m aliasMap
    end.

End Inputs.

(** ** The keys of a Question *)

(** The names of the thirty-nine properties that the struct declares, in
    declared order, as the comments of the per-property blocks of the
    source give them ("Compare property", "Maybe serialize property"). *)
Definition declaredPropertyNames : list string :=
  [ "actor"; "altitude"; "anyOf"; "attachment"; "attributedTo"; "audience"; "bcc";
    "bto"; "cc"; "closed"; "content"; "context"; "duration"; "endTime"; "generator";
    "icon"; "id"; "image"; "inReplyTo"; "instrument"; "likes"; "location";
    "mediaType"; "name"; "oneOf"; "origin"; "preview"; "published"; "replies";
    "result"; "shares"; "startTime"; "summary"; "tag"; "target"; "to"; "type";
    "updated"; "url" ].

(** The three further keys that the unknown-deserialization loop skips:
    the language-map companions of "content", "name" and "summary". *)
Definition companionKeys : list string :=
  [ "contentMap"; "nameMap"; "summaryMap" ].

(** ** Properties of the loops over maps *)

Lemma assignAll_union (child m : gmap string string) :
  assignAll child m = child ∪ m.
Proof.
  unfold assignAll.
  apply (map_fold_weak_ind (fun r c => r = c ∪ m)).
  - by rewrite (left_id_L ∅ (∪)).
  - intros k v c r _ ->. by rewrite insert_union_l.
Qed.

Lemma assignAll_lookup (child m : gmap string string) (k : string) :
  assignAll child m !! k =
  match child !! k with Some v => Some v | None => m !! k end.
Proof.
  rewrite assignAll_union, lookup_union.
  destruct (child !! k), (m !! k); reflexivity.
Qed.

Section QuestionLoops.
Context {P : Type} `{!Question.Property P}.

Lemma serializeUnknown_union (unknown m : gmap string JValue) :
  Question.serializeUnknown unknown m = m ∪ unknown.
Proof.
  unfold Question.serializeUnknown.
  apply (map_fold_weak_ind (fun r u => r = m ∪ u)).
  - by rewrite (right_id_L ∅ (∪)).
  - intros k v u r Hk ->.
    destruct ((m ∪ u) !! k) as [w|] eqn:Hl; simpl.
    + apply map_eq; intros j. rewrite !lookup_union.
      destruct (decide (k = j)) as [<-|Hne].
      * rewrite lookup_insert_eq, Hk.
        rewrite lookup_union, Hk in Hl.
        destruct (m !! k); [reflexivity | discriminate].
      * by rewrite lookup_insert_ne.
    + rewrite lookup_union, Hk in Hl.
      destruct (m !! k) eqn:Hm; [discriminate|].
      by rewrite insert_union_r.
Qed.

Lemma deserializeUnknown_lookup (m : gmap string JValue) (k : string) :
  Question.deserializeUnknown m ∅ !! k =
  if Question.isKnownKey k then None else m !! k.
Proof.
  unfold Question.deserializeUnknown.
  apply (map_fold_weak_ind
           (fun r mm => r !! k = if Question.isKnownKey k then None else mm !! k)).
  - rewrite lookup_empty. by destruct (Question.isKnownKey k).
  - intros j v mm r Hj IH.
    destruct (decide (j = k)) as [->|Hne].
    + destruct (Question.isKnownKey k); [done|]. by rewrite !lookup_insert_eq.
    + destruct (Question.isKnownKey j).
      * rewrite IH. by rewrite lookup_insert_ne.
      * by rewrite !lookup_insert_ne.
Qed.
End QuestionLoops.

(** ** Functional properties: "partOf" and "liked" *)

Lemma nonempty_length (x : string) :
  (0 <? String.length x)%nat = true <-> x <> "".
Proof.
  destruct x; simpl; split; intros Hx; try done.
Qed.

Lemma parseIRI_Some `{NetUrl} (i : JValue) (u : URL) :
  parseIRI i = Some u <-> Spec.schemedIRI i u.
Proof.
  unfold Spec.schemedIRI. split.
  - destruct i as [| | |s| |]; simpl; try discriminate.
    destruct (url_Parse s) as [u'|] eqn:Hp; [|discriminate].
    destruct (0 <? String.length (url_Scheme u'))%nat eqn:Hs; [|discriminate].
    intros [= ->]. exists s. by rewrite <- nonempty_length.
  - intros (s & -> & Hp & Hs). simpl. rewrite Hp.
    apply nonempty_length in Hs. by rewrite Hs.
Qed.

Lemma parseIRI_None `{NetUrl} (i : JValue) :
  parseIRI i = None <-> ~ exists u, Spec.schemedIRI i u.
Proof.
  split.
  - intros Hn [u Hu]. apply parseIRI_Some in Hu. congruence.
  - intros Hn. destruct (parseIRI i) as [u|] eqn:Hp; [|done].
    exfalso. apply Hn. exists u. by apply parseIRI_Some.
Qed.

Section Properties.
Context `{NetUrl}.
Context {Link Collection CollectionPage Mention
         OrderedCollection OrderedCollectionPage : Type}.
Context `{!VocabType Link, !VocabType Collection, !VocabType CollectionPage,
          !VocabType Mention, !VocabType OrderedCollection,
          !VocabType OrderedCollectionPage}.

Abbreviation PartOfProperty :=
  (PartOf.ActivityStreamsPartOfProperty Link Collection CollectionPage Mention
     OrderedCollection OrderedCollectionPage).
Abbreviation LikedProperty :=
  (Liked.ActivityStreamsLikedProperty OrderedCollection Collection CollectionPage
     OrderedCollectionPage).
Abbreviation PartOfManager :=
  (PartOf.Manager Link Collection CollectionPage Mention
     OrderedCollection OrderedCollectionPage).
Abbreviation LikedManager :=
  (Liked.Manager OrderedCollection Collection CollectionPage OrderedCollectionPage).
Abbreviation partOfKey aliasMap := (qualify (lookupAlias aliasMap) "partOf").
Abbreviation likedKey aliasMap := (qualify (lookupAlias aliasMap) "liked").

(** Every [Set<Kind>] method starts from the cleared property, so only
    the last call of a sequence shows. *)
Lemma partOf_calls_alias (this : PartOfProperty) cs :
  PartOf.alias (PartOf.calls this cs) = PartOf.alias this.
Proof.
  revert this. induction cs as [|c cs IH]; intros this; [reflexivity|].
  unfold PartOf.calls in *. simpl. rewrite IH. by destruct c.
Qed.

Lemma partOf_calls_last (this : PartOfProperty) cs c :
  PartOf.calls this (cs ++ [c]) = PartOf.call (PartOf.Clear this) c.
Proof.
  unfold PartOf.calls. rewrite fold_left_app. simpl.
  pose proof (partOf_calls_alias this cs) as Ha. unfold PartOf.calls in Ha.
  destruct c; simpl;
    unfold PartOf.SetActivityStreamsLink, PartOf.SetActivityStreamsCollection,
      PartOf.SetActivityStreamsCollectionPage, PartOf.SetActivityStreamsMention,
      PartOf.SetActivityStreamsOrderedCollection,
      PartOf.SetActivityStreamsOrderedCollectionPage, PartOf.SetIRI, PartOf.Clear;
    simpl; by rewrite Ha.
Qed.

Lemma liked_calls_alias (this : LikedProperty) cs :
  Liked.alias (Liked.calls this cs) = Liked.alias this.
Proof.
  revert this. induction cs as [|c cs IH]; intros this; [reflexivity|].
  unfold Liked.calls in *. simpl. rewrite IH. by destruct c.
Qed.

Lemma liked_calls_last (this : LikedProperty) cs c :
  Liked.calls this (cs ++ [c]) = Liked.call (Liked.Clear this) c.
Proof.
  unfold Liked.calls. rewrite fold_left_app. simpl.
  pose proof (liked_calls_alias this cs) as Ha. unfold Liked.calls in Ha.
  destruct c; simpl;
    unfold Liked.SetActivityStreamsOrderedCollection, Liked.SetActivityStreamsCollection,
      Liked.SetActivityStreamsCollectionPage,
      Liked.SetActivityStreamsOrderedCollectionPage, Liked.SetIRI, Liked.Clear;
    simpl; by rewrite Ha.
Qed.

(** What a non-empty sequence of [Set<Kind>] calls leaves: the predicate
    named by the last call answers whether the value passed to that call
    was non-nil, and every other predicate answers false.  With a non-nil
    last value exactly one predicate is true; the nil case is where the
    methods miss their doc comments. *)
Theorem set_calls_flags
    (this : PartOfProperty) (cs : list (PartOf.SetCall _ _ _ _ _ _)) c
    (thisL : LikedProperty) (csL : list (Liked.SetCall _ _ _ _)) cL :
  (PartOf.isFlags (PartOf.calls this (cs ++ [c]))
     = <[PartOf.flagOf c := PartOf.argNonNil c]> (replicate 7 false)
   /\ Spec.countTrue (PartOf.isFlags (PartOf.calls this (cs ++ [c])))
     = (if PartOf.argNonNil c then 1 else 0)%nat)
  /\ (Liked.isFlags (Liked.calls thisL (csL ++ [cL]))
     = <[Liked.flagOf cL := Liked.argNonNil cL]> (replicate 5 false)
   /\ Spec.countTrue (Liked.isFlags (Liked.calls thisL (csL ++ [cL])))
     = (if Liked.argNonNil cL then 1 else 0)%nat).
Proof.
  rewrite partOf_calls_last, liked_calls_last.
  split; split.
  1,2: destruct c as [v|v|v|v|v|v|v]; destruct v; reflexivity.
  all: destruct cL as [v|v|v|v|v]; destruct v; reflexivity.
Qed.

Lemma partOf_JSONLDContext_union (this : PartOfProperty) :
  PartOf.JSONLDContext this
  = PartOf.childContext this ∪ {[ vocabURI := PartOf.alias this ]}.
Proof. unfold PartOf.JSONLDContext. apply assignAll_union. Qed.

Lemma liked_JSONLDContext_union (this : LikedProperty) :
  Liked.JSONLDContext this
  = Liked.childContext this ∪ {[ vocabURI := Liked.alias this ]}.
Proof. unfold Liked.JSONLDContext. apply assignAll_union. Qed.

Lemma union_singleton_is_Some (child : gmap string string) (k v : string) :
  is_Some ((child ∪ {[ k := v ]}) !! k).
Proof.
  rewrite lookup_union, lookup_singleton_eq.
  destruct (child !! k); simpl; eauto.
Qed.

(** What the loop of [JSONLDContext] computes: every entry of the populated
    kind's context is assigned over the initial entry for the vocabulary
    namespace.  The namespace key is always present, and it maps to the
    instance's alias when the child's context has no entry for it; when the
    child binds it, the loop overwrites, against its own comment. *)
Theorem JSONLDContext_assigns_child (this : PartOfProperty) (thisL : LikedProperty) :
  (PartOf.JSONLDContext this
     = PartOf.childContext this ∪ {[ vocabURI := PartOf.alias this ]}
   /\ is_Some (PartOf.JSONLDContext this !! vocabURI)
   /\ PartOf.JSONLDContext this !! vocabURI
      = Some (default (PartOf.alias this) (PartOf.childContext this !! vocabURI)))
  /\ (Liked.JSONLDContext thisL
     = Liked.childContext thisL ∪ {[ vocabURI := Liked.alias thisL ]}
   /\ is_Some (Liked.JSONLDContext thisL !! vocabURI)
   /\ Liked.JSONLDContext thisL !! vocabURI
      = Some (default (Liked.alias thisL) (Liked.childContext thisL !! vocabURI))).
Proof.
  rewrite partOf_JSONLDContext_union, liked_JSONLDContext_union.
  repeat split; try apply union_singleton_is_Some.
  all: rewrite lookup_union, lookup_singleton_eq.
  - by destruct (PartOf.childContext this !! vocabURI).
  - by destruct (Liked.childContext thisL !! vocabURI).
Qed.

Lemma partOf_dispatch_firstSuccess (mgr : PartOfManager) alias m aliasMap :
  PartOf.dispatch mgr alias m aliasMap
  = Spec.firstSuccess (Spec.partOfAttempts mgr alias m aliasMap).
Proof.
  unfold PartOf.dispatch, Spec.partOfAttempts. simpl.
  repeat match goal with
         | |- context [match ?d mgr m aliasMap with _ => _ end] =>
             destruct (d mgr m aliasMap); simpl; try reflexivity
         end.
Qed.

Lemma liked_dispatch_firstSuccess (mgr : LikedManager) alias m aliasMap :
  Liked.dispatch mgr alias m aliasMap
  = Spec.firstSuccess (Spec.likedAttempts mgr alias m aliasMap).
Proof.
  unfold Liked.dispatch, Spec.likedAttempts. simpl.
  repeat match goal with
         | |- context [match ?d mgr m aliasMap with _ => _ end] =>
             destruct (d mgr m aliasMap); simpl; try reflexivity
         end.
Qed.

(** C4: when the property key holds a nested map, deserialization returns
    the first success among the candidate deserializers taken in declared
    order (and the raw value as unknown when there is none); for "liked",
    a map that both the OrderedCollection and the Collection deserializer
    accept becomes an OrderedCollection. *)
Theorem dispatch_in_declared_order
    (mgr : PartOfManager) (mgrL : LikedManager)
    (m : gmap string JValue) (aliasMap : gmap string string)
    (obj : gmap string JValue) :
  (m !! partOfKey aliasMap = Some (JObj obj) ->
     PartOf.DeserializePartOfProperty mgr m aliasMap
     = (Some (default
                (PartOf.mk None None None None None None (JObj obj) None
                           (lookupAlias aliasMap))
                (Spec.firstSuccess
                   (Spec.partOfAttempts mgr (lookupAlias aliasMap) obj aliasMap))),
        None))
  /\ (m !! likedKey aliasMap = Some (JObj obj) ->
     Liked.DeserializeLikedProperty mgrL m aliasMap
     = (Some (default
                (Liked.mk None None None None (JObj obj) None (lookupAlias aliasMap))
                (Spec.firstSuccess
                   (Spec.likedAttempts mgrL (lookupAlias aliasMap) obj aliasMap))),
        None)
     /\ forall v w,
         Liked.DeserializeOrderedCollectionActivityStreams mgrL obj aliasMap = Ok v ->
         Liked.DeserializeCollectionActivityStreams mgrL obj aliasMap = Ok w ->
         Liked.DeserializeLikedProperty mgrL m aliasMap
         = (Some (Liked.mk v None None None JNil None (lookupAlias aliasMap)), None)).
Proof.
  split.
  - intros Hk.
    unfold PartOf.DeserializePartOfProperty, PartOf.dispatchValue, parseIRI.
    rewrite Hk. cbv beta iota zeta.
    rewrite partOf_dispatch_firstSuccess.
    by destruct (Spec.firstSuccess _).
  - intros Hk.
    unfold Liked.DeserializeLikedProperty, Liked.dispatchValue, parseIRI.
    rewrite Hk. cbv beta iota zeta.
    split.
    + rewrite liked_dispatch_firstSuccess. by destruct (Spec.firstSuccess _).
    + intros v w Hv _. unfold Liked.dispatch. by rewrite Hv.
Qed.

Lemma partOf_deserialize_string (mgr : PartOfManager) m aliasMap s :
  m !! partOfKey aliasMap = Some (JStr s) ->
  PartOf.DeserializePartOfProperty mgr m aliasMap
  = match parseIRI (JStr s) with
    | Some u => (Some (PartOf.mk None None None None None None JNil (Some u)
                                 (lookupAlias aliasMap)), None)
    | None => (Some (PartOf.mk None None None None None None (JStr s) None
                               (lookupAlias aliasMap)), None)
    end.
Proof.
  intros Hk. unfold PartOf.DeserializePartOfProperty. rewrite Hk.
  by destruct (parseIRI (JStr s)).
Qed.

Lemma liked_deserialize_string (mgr : LikedManager) m aliasMap s :
  m !! likedKey aliasMap = Some (JStr s) ->
  Liked.DeserializeLikedProperty mgr m aliasMap
  = match parseIRI (JStr s) with
    | Some u => (Some (Liked.mk None None None None JNil (Some u)
                                (lookupAlias aliasMap)), None)
    | None => (Some (Liked.mk None None None None (JStr s) None
                              (lookupAlias aliasMap)), None)
    end.
Proof.
  intros Hk. unfold Liked.DeserializeLikedProperty. rewrite Hk.
  by destruct (parseIRI (JStr s)).
Qed.

Lemma schemed_string (s : string) (u : URL) :
  Spec.schemedIRI (JStr s) u <-> url_Parse s = Ok u /\ url_Scheme u <> "".
Proof.
  unfold Spec.schemedIRI. split.
  - by intros (s' & [= <-] & Hp & Hs).
  - intros [Hp Hs]. by exists s.
Qed.

(** C5: when the property key holds a string [s], the property is an IRI
    exactly when [url.Parse s] succeeds with a non-empty scheme, and it
    then holds the parsed URL; otherwise the string is kept in the unknown
    slot and the IRI slot stays empty. *)
Theorem string_is_IRI_iff_schemed
    (mgr : PartOfManager) (mgrL : LikedManager)
    (m : gmap string JValue) (aliasMap : gmap string string) (s : string) :
  (m !! partOfKey aliasMap = Some (JStr s) ->
     exists this,
       PartOf.DeserializePartOfProperty mgr m aliasMap = (Some this, None)
       /\ (PartOf.IsIRI this = true
           <-> exists u, url_Parse s = Ok u /\ url_Scheme u <> "")
       /\ (forall u, url_Parse s = Ok u -> url_Scheme u <> "" ->
             this = PartOf.mk None None None None None None JNil (Some u)
                              (lookupAlias aliasMap))
       /\ ((~ exists u, url_Parse s = Ok u /\ url_Scheme u <> "") ->
             this = PartOf.mk None None None None None None (JStr s) None
                              (lookupAlias aliasMap)))
  /\ (m !! likedKey aliasMap = Some (JStr s) ->
     exists this,
       Liked.DeserializeLikedProperty mgrL m aliasMap = (Some this, None)
       /\ (Liked.IsIRI this = true
           <-> exists u, url_Parse s = Ok u /\ url_Scheme u <> "")
       /\ (forall u, url_Parse s = Ok u -> url_Scheme u <> "" ->
             this = Liked.mk None None None None JNil (Some u) (lookupAlias aliasMap))
       /\ ((~ exists u, url_Parse s = Ok u /\ url_Scheme u <> "") ->
             this = Liked.mk None None None None (JStr s) None
                             (lookupAlias aliasMap))).
Proof.
  split; intros Hk.
  - rewrite (partOf_deserialize_string mgr _ _ _ Hk).
    destruct (parseIRI (JStr s)) as [u|] eqn:Hp.
    + apply parseIRI_Some, schemed_string in Hp as Hu. destruct Hu as [Hu Hs].
      eexists; split; [reflexivity|]. repeat split.
      * intros _. by exists u.
      * intros u' Hu' _. congruence.
      * intros Hn. exfalso. apply Hn. by exists u.
    + eexists; split; [reflexivity|]. repeat split; try done.
      * intros [u [Hu Hs]].
        assert (parseIRI (JStr s) = Some u) by by apply parseIRI_Some, schemed_string.
        congruence.
      * intros u Hu Hs.
        assert (parseIRI (JStr s) = Some u) by by apply parseIRI_Some, schemed_string.
        congruence.
  - rewrite (liked_deserialize_string mgrL _ _ _ Hk).
    destruct (parseIRI (JStr s)) as [u|] eqn:Hp.
    + apply parseIRI_Some, schemed_string in Hp as Hu. destruct Hu as [Hu Hs].
      eexists; split; [reflexivity|]. repeat split.
      * intros _. by exists u.
      * intros u' Hu' _. congruence.
      * intros Hn. exfalso. apply Hn. by exists u.
    + eexists; split; [reflexivity|]. repeat split; try done.
      * intros [u [Hu Hs]].
        assert (parseIRI (JStr s) = Some u) by by apply parseIRI_Some, schemed_string.
        congruence.
      * intros u Hu Hs.
        assert (parseIRI (JStr s) = Some u) by by apply parseIRI_Some, schemed_string.
        congruence.
Qed.

Lemma partOf_dispatchValue_None (mgr : PartOfManager) alias i aliasMap :
  ~ Spec.partOfAccepted mgr i aliasMap ->
  PartOf.dispatchValue mgr alias i aliasMap = None.
Proof.
  intros Hn. destruct i as [| | | | |obj]; try reflexivity.
  simpl. unfold PartOf.dispatch.
  repeat match goal with
         | |- context [match ?d mgr obj aliasMap with _ => _ end] =>
             destruct (d mgr obj aliasMap) eqn:?
         end; try reflexivity.
  all: exfalso; apply Hn; exists obj; split; [reflexivity|];
    repeat match goal with
           | E : _ = Ok _ |- _ => rewrite E; clear E
           | E : _ = Err _ |- _ => clear E
           end; simpl; tauto.
Qed.

(** C6: [DeserializePartOfProperty] never returns an error, whatever the
    typed deserializers do; it returns no property exactly when the key is
    absent; and a value that is neither a string with a scheme nor a map
    that some candidate accepts is kept as it is in the unknown slot. *)
Theorem partOf_deserialize_total
    (mgr : PartOfManager) (m : gmap string JValue) (aliasMap : gmap string string) :
  snd (PartOf.DeserializePartOfProperty mgr m aliasMap) = None
  /\ (fst (PartOf.DeserializePartOfProperty mgr m aliasMap) = None
      <-> m !! partOfKey aliasMap = None)
  /\ (forall i,
        m !! partOfKey aliasMap = Some i ->
        (~ exists u, Spec.schemedIRI i u) ->
        ~ Spec.partOfAccepted mgr i aliasMap ->
        fst (PartOf.DeserializePartOfProperty mgr m aliasMap)
        = Some (PartOf.mk None None None None None None i None (lookupAlias aliasMap))).
Proof.
  unfold PartOf.DeserializePartOfProperty.
  destruct (m !! partOfKey aliasMap) as [i|] eqn:Hk.
  - destruct (parseIRI i) as [u|] eqn:Hp.
    + repeat split; try done. intros i' [= <-] Hn _.
      exfalso. apply Hn. exists u. by apply parseIRI_Some.
    + destruct (PartOf.dispatchValue mgr (lookupAlias aliasMap) i aliasMap) eqn:Hd.
      * repeat split; try done. intros i' [= <-] _ Hn.
        rewrite (partOf_dispatchValue_None _ _ _ _ Hn) in Hd. discriminate.
      * repeat split; try done. by intros i' [= <-] _ _.
  - repeat split; done.
Qed.

(** C8 (amended): when the property key holds a string with a URL scheme,
    deserializing and then serializing yields the [String()] rendering of
    the parsed URL; this is the input string exactly when the URL library
    renders the parsed URL back to the text it was parsed from. *)
Theorem iri_serializes_as_url_String
    (mgr : PartOfManager) (mgrL : LikedManager)
    (m : gmap string JValue) (aliasMap : gmap string string)
    (s : string) (u : URL) :
  url_Parse s = Ok u ->
  url_Scheme u <> "" ->
  (m !! partOfKey aliasMap = Some (JStr s) ->
     exists this,
       PartOf.DeserializePartOfProperty mgr m aliasMap = (Some this, None)
       /\ PartOf.Serialize this = Ok (JStr (url_String u))
       /\ (PartOf.Serialize this = Ok (JStr s) <-> url_String u = s))
  /\ (m !! likedKey aliasMap = Some (JStr s) ->
     exists this,
       Liked.DeserializeLikedProperty mgrL m aliasMap = (Some this, None)
       /\ Liked.Serialize this = Ok (JStr (url_String u))
       /\ (Liked.Serialize this = Ok (JStr s) <-> url_String u = s)).
Proof.
  intros Hu Hs.
  assert (parseIRI (JStr s) = Some u) as Hp by by apply parseIRI_Some, schemed_string.
  split; intros Hk.
  - rewrite (partOf_deserialize_string mgr _ _ _ Hk), Hp.
    eexists; split; [reflexivity|]. simpl. split; [reflexivity|].
    split; [intros [= Heq]; exact Heq | intros <-; reflexivity].
  - rewrite (liked_deserialize_string mgrL _ _ _ Hk), Hp.
    eexists; split; [reflexivity|]. simpl. split; [reflexivity|].
    split; [intros [= Heq]; exact Heq | intros <-; reflexivity].
Qed.

Lemma partOf_HasAny_KindIndex (this : PartOfProperty) :
  PartOf.HasAny this = true <-> PartOf.KindIndex this <> (-1)%Z.
Proof.
  unfold PartOf.HasAny, PartOf.KindIndex, PartOf.IsActivityStreamsLink,
    PartOf.IsActivityStreamsCollection, PartOf.IsActivityStreamsCollectionPage,
    PartOf.IsActivityStreamsMention, PartOf.IsActivityStreamsOrderedCollection,
    PartOf.IsActivityStreamsOrderedCollectionPage, PartOf.IsIRI.
  destruct this as [[?|] [?|] [?|] [?|] [?|] [?|] ? [?|] ?]; simpl; split; done.
Qed.

Lemma liked_HasAny_KindIndex (this : LikedProperty) :
  Liked.HasAny this = true <-> Liked.KindIndex this <> (-1)%Z.
Proof.
  unfold Liked.HasAny, Liked.KindIndex, Liked.IsActivityStreamsOrderedCollection,
    Liked.IsActivityStreamsCollection, Liked.IsActivityStreamsCollectionPage,
    Liked.IsActivityStreamsOrderedCollectionPage, Liked.IsIRI.
  destruct this as [[?|] [?|] [?|] [?|] ? [?|] ?]; simpl; split; done.
Qed.

(** C10: [HasAny] is true exactly when [KindIndex] is not -1, in every
    state; a property read from a number or an array holds only an unknown
    payload: [HasAny] is false and [KindIndex] is -1, while [Serialize]
    returns the payload. *)
Theorem HasAny_iff_KindIndex :
  (forall this : PartOfProperty,
      PartOf.HasAny this = true <-> PartOf.KindIndex this <> (-1)%Z)
  /\ (forall this : LikedProperty,
      Liked.HasAny this = true <-> Liked.KindIndex this <> (-1)%Z)
  /\ (forall (mgr : PartOfManager) m aliasMap i,
        m !! partOfKey aliasMap = Some i ->
        ((exists n, i = JNum n) \/ (exists l, i = JArr l)) ->
        exists this,
          PartOf.DeserializePartOfProperty mgr m aliasMap = (Some this, None)
          /\ PartOf.HasAny this = false
          /\ PartOf.KindIndex this = (-1)%Z
          /\ PartOf.Serialize this = Ok i)
  /\ (forall (mgr : LikedManager) m aliasMap i,
        m !! likedKey aliasMap = Some i ->
        ((exists n, i = JNum n) \/ (exists l, i = JArr l)) ->
        exists this,
          Liked.DeserializeLikedProperty mgr m aliasMap = (Some this, None)
          /\ Liked.HasAny this = false
          /\ Liked.KindIndex this = (-1)%Z
          /\ Liked.Serialize this = Ok i).
Proof.
  split; [exact partOf_HasAny_KindIndex|].
  split; [exact liked_HasAny_KindIndex|].
  split.
  - intros mgr m aliasMap i Hk Hi.
    unfold PartOf.DeserializePartOfProperty. rewrite Hk.
    destruct Hi as [[n ->]|[l ->]]; simpl; eexists; split; reflexivity || by repeat split.
  - intros mgr m aliasMap i Hk Hi.
    unfold Liked.DeserializeLikedProperty. rewrite Hk.
    destruct Hi as [[n ->]|[l ->]]; simpl; eexists; split; reflexivity || by repeat split.
Qed.
End Properties.

(** ** The Question type *)

Lemma prefix_cons (c d : ascii) (p s : string) :
  String.prefix (String c p) (String d s)
  = if ascii_dec c d then String.prefix p s else false.
Proof. reflexivity. Qed.

Lemma prefix_colon (a s : string) :
  String.prefix (a +:+ ":") s = true -> Spec.hasColon s = true.
Proof.
  revert s. induction a as [|c a IH]; intros [|d s]; try discriminate.
  - change ("" +:+ ":") with (String ":"%char ""). rewrite prefix_cons.
    destruct (ascii_dec ":" d) as [<-|]; [intros _; reflexivity | intros [=]].
  - change (String c a +:+ ":") with (String c (a +:+ ":")). rewrite prefix_cons.
    destruct (ascii_dec c d); [|intros [=]].
    intros Hp. cbn [Spec.hasColon]. rewrite (IH _ Hp). apply orb_true_r.
Qed.

Lemma substring_all (s : string) :
  String.substring 0 (String.length s) s = s.
Proof. induction s as [|c s IH]; simpl; congruence. Qed.

Lemma TrimPrefix_unqualified (aliasMap : gmap string string) (s : string) :
  Spec.hasColon s = false ->
  Question.TrimPrefix s (Spec.aliasPrefixOf aliasMap) = s.
Proof.
  intros Hc. unfold Question.TrimPrefix, Spec.aliasPrefixOf.
  destruct (aliasMap !! vocabURI) as [a|].
  - destruct (String.prefix (a +:+ ":") s) eqn:Hp; [|done].
    apply prefix_colon in Hp. congruence.
  - assert (String.prefix "" s = true) as -> by by destruct s.
    simpl. rewrite Nat.sub_0_r. apply substring_all.
Qed.

Section QuestionFacts.
Context {P : Type} `{!Question.Property P}.

Abbreviation Q := (Question.ActivityStreamsQuestion P).


(** The slip in [LessThan]: a property that only this side has does not
    end the comparison. *)
Lemma compareProperty_nonnil_nil (l : P) :
  Question.compareProperty (Some l) None = None.
Proof. reflexivity. Qed.

Lemma compareProperty_nil_nonnil (r : P) :
  Question.compareProperty None (Some r) = Some true.
Proof. reflexivity. Qed.

Lemma compareProperty_both (l r : P) :
  Question.compareProperty (Some l) (Some r)
  = if Question.prop_LessThan l r then Some true
    else if Question.prop_LessThan r l then Some false
    else None.
Proof. reflexivity. Qed.

Lemma checkType_rejected (m : gmap string JValue) (aliasPrefix : string) :
  is_Some (Question.checkType m aliasPrefix) <-> Spec.typeRejected m aliasPrefix.
Proof.
  unfold Question.checkType, Spec.typeRejected.
  destruct (m !! "type") as [v|] eqn:Hm.
  2: { split; [by left | eauto]. }
  destruct v as [|b|n|s|l|o].
  1-3,6: split; [intros _; do 3 right; eexists; by repeat split|eauto].
  - (* a string *)
    destruct (String.eqb_spec (Question.TrimPrefix s aliasPrefix) "Question") as [He|He].
    + split; [by intros [? [=]]|].
      intros [[=]|[(s' & [= <-] & Hs)|[(l & [=] & _)|(v & [= <-] & Hs & _)]]].
      * done.
      * by destruct (Hs s).
    + split; [|eauto]. intros _. right; left. by exists s.
  - (* an array *)
    match goal with |- context [existsb ?f l] => destruct (existsb f l) eqn:He end.
    + split; [by intros [? [=]]|].
      apply existsb_exists in He as (x & Hx & Hq).
      intros [[=]|[(s' & [=] & _)|[(l' & [= <-] & Hl)|(v & [= <-] & _ & Hl)]]].
      * exfalso. apply (Hl x); [by apply list_elem_of_In|].
        destruct x; try discriminate. eexists. split; [reflexivity|].
        by apply String.eqb_eq.
      * by destruct (Hl l).
    + split; [|eauto]. intros _. right; right; left. exists l. split; [done|].
      intros x Hx (s & -> & Hs).
      assert (existsb (fun elemVal =>
                match elemVal with
                | JStr typeString =>
                    String.eqb (Question.TrimPrefix typeString aliasPrefix) "Question"
                | _ => false
                end) l = true) as Ht.
      { apply existsb_exists. exists (JStr s). split; [by apply list_elem_of_In|].
        by apply String.eqb_eq. }
      congruence.
Qed.

Lemma deserializeKnown_ok (mgr : Question.Manager P) fs m aliasMap (this : Q) :
  (forall f, is_Err (mgr f m aliasMap) = false) ->
  exists q, Question.deserializeKnown mgr fs m aliasMap this = Ok q
            /\ Question.alias q = Question.alias this
            /\ Question.unknown q = Question.unknown this.
Proof.
  intros Hok. revert this. induction fs as [|f fs IH]; intros this; simpl.
  - by exists this.
  - specialize (Hok f) as Hf. destruct (mgr f m aliasMap) as [p|]; [|discriminate].
    destruct (IH (if isSome p then Question.setField f p this else this))
      as (q & -> & Ha & Hu).
    exists q. split; [done|]. rewrite Ha, Hu. by destruct p.
Qed.

(** C7: a missing, mismatching or unrecognized "type" always makes
    [DeserializeQuestion] fail; and as long as no property deserializer
    fails, that is the only way it fails: it returns an error exactly when
    "type" is missing, is a string other than (alias-qualified) Question,
    is an array without such a string, or is neither string nor array. *)
Theorem DeserializeQuestion_error_iff
    (mgr : Question.Manager P) (m : gmap string JValue)
    (aliasMap : gmap string string) :
  (Spec.typeRejected m (Spec.aliasPrefixOf aliasMap) ->
     is_Err (Question.DeserializeQuestion mgr m aliasMap) = true)
  /\ ((forall f, is_Err (mgr f m aliasMap) = false) ->
      (is_Err (Question.DeserializeQuestion mgr m aliasMap) = true
       <-> Spec.typeRejected m (Spec.aliasPrefixOf aliasMap))).
Proof.
  unfold Question.DeserializeQuestion. fold (Spec.aliasPrefixOf aliasMap).
  pose proof (checkType_rejected m (Spec.aliasPrefixOf aliasMap)) as Hc.
  destruct (Question.checkType m (Spec.aliasPrefixOf aliasMap)) as [e|].
  - split; [done|]. intros _. split; [|done]. intros _. apply Hc. eauto.
  - split.
    + intros Hr. apply Hc in Hr. by destruct Hr.
    + intros Hok.
      destruct (deserializeKnown_ok mgr Question.declared m aliasMap
                  (Question.mk (fun _ => None) (lookupAlias aliasMap) ∅) Hok)
        as (q & -> & _). cbn [is_Err].
      split; [done|]. intros Hr. apply Hc in Hr. by destruct Hr.
Qed.

(** A map with "type": "Question" deserializes (as long as no property
    deserializer fails); the unknown properties are the entries of the
    input whose key the loop of [DeserializeQuestion] does not skip; and a
    successful [Serialize] returns the known entries together with every
    unknown entry whose key no known entry uses. *)
Theorem unknown_properties_survive
    (mgr : Question.Manager P) (m : gmap string JValue)
    (aliasMap : gmap string string) :
  m !! "type" = Some (JStr "Question") ->
  (forall f, is_Err (mgr f m aliasMap) = false) ->
  exists q,
    Question.DeserializeQuestion mgr m aliasMap = Ok q
    /\ (forall k, Question.GetUnknownProperties q !! k
                  = if Question.isKnownKey k then None else m !! k)
    /\ (forall out, Question.Serialize q = Ok out ->
          exists known,
            Question.serializeKnown Question.declared q (Question.typeEntry q) = Ok known
            /\ out = known ∪ Question.GetUnknownProperties q
            /\ forall k v, Question.GetUnknownProperties q !! k = Some v ->
                           out !! k = Some (default v (known !! k))).
Proof.
  intros Ht Hok. unfold Question.DeserializeQuestion.
  fold (Spec.aliasPrefixOf aliasMap). unfold Question.checkType. rewrite Ht.
  rewrite TrimPrefix_unqualified by reflexivity.
  rewrite String.eqb_refl. cbv beta iota zeta.
  destruct (deserializeKnown_ok mgr Question.declared m aliasMap
              (Question.mk (fun _ => None) (lookupAlias aliasMap) ∅) Hok)
    as (q & -> & Ha & Hu).
  eexists. split; [reflexivity|]. split.
  - intros k. unfold Question.GetUnknownProperties.
    cbn [Question.unknown]. rewrite Hu. cbn [Question.unknown].
    apply deserializeUnknown_lookup.
  - intros out. unfold Question.Serialize, Question.GetUnknownProperties.
    match goal with
    | |- context [Question.serializeKnown ?a ?b ?c] =>
        destruct (Question.serializeKnown a b c) as [known|] eqn:Hs
    end; [|discriminate].
    intros [= <-]. exists known. split; [reflexivity|].
    rewrite serializeUnknown_union. split; [reflexivity|].
    intros k v Hk. cbn [Question.unknown] in Hk. rewrite lookup_union, Hk.
    by destruct (known !! k).
Qed.
End QuestionFacts.

(** ** The definitions at work on concrete inputs *)
Section Instances.
Import Model Inputs.

(** C1: the code at the failing input.  [SetIRI(nil)] on a fresh "partOf":
    [IsIRI] afterwards is false, although the doc comment of [SetIRI] says
    that calling [IsIRI] afterwards returns true; every predicate is false,
    so it is not the case that exactly one of them is true.  The same
    happens for a typed kind, here [SetActivityStreamsCollection(nil)] on
    "liked". *)
Theorem set_nil_leaves_no_flag :
  PartOf.IsIRI (PartOf.SetIRI None freshPartOf) = false
  /\ PartOf.isFlags (PartOf.calls freshPartOf [PartOf.CallSetIRI None])
     = [false; false; false; false; false; false; false]
  /\ ~ Spec.exactlyOne
        (PartOf.isFlags (PartOf.calls freshPartOf [PartOf.CallSetIRI None]))
  /\ Liked.IsActivityStreamsCollection
       (Liked.SetActivityStreamsCollection None freshLiked) = false
  /\ ~ Spec.exactlyOne
        (Liked.isFlags
           (Liked.calls freshLiked [Liked.CallSetActivityStreamsCollection None])).
Proof.
  repeat split; try reflexivity.
  - unfold Spec.exactlyOne. vm_compute. discriminate.
  - unfold Spec.exactlyOne. vm_compute. discriminate.
Qed.

Lemma set_calls_flags_witness :
  PartOf.isFlags
    (PartOf.calls freshPartOf
       ([PartOf.CallSetActivityStreamsLink (Some aliasedLink)]
          ++ [PartOf.CallSetIRI (Some exampleURL)]))
  = [false; false; false; false; false; false; true]
  /\ Liked.isFlags
    (Liked.calls freshLiked
       ([Liked.CallSetIRI (Some exampleURL)]
          ++ [Liked.CallSetActivityStreamsCollection (Some aliasedLink)]))
  = [false; true; false; false; false].
Proof.
  destruct (set_calls_flags
              freshPartOf [PartOf.CallSetActivityStreamsLink (Some aliasedLink)]
              (PartOf.CallSetIRI (Some exampleURL))
              freshLiked [Liked.CallSetIRI (Some exampleURL)]
              (Liked.CallSetActivityStreamsCollection (Some aliasedLink)))
    as [[HP _] [HL _]].
  split; [exact HP | exact HL].
Defined.

(** C2: the code at the failing input.  A fresh "partOf" (alias "") that is
    given a Link read under the alias "as" reports the namespace under
    "as", not under its own alias: the loop has overwritten the entry that
    was there with a new value, which its comment says it should not do and
    which an insert-if-absent merge would not have done. *)
Theorem JSONLDContext_overwrites :
  PartOf.alias partOfWithAliasedLink = ""
  /\ PartOf.JSONLDContext partOfWithAliasedLink !! vocabURI = Some "as"
  /\ PartOf.JSONLDContext partOfWithAliasedLink !! vocabURI
     <> Some (PartOf.alias partOfWithAliasedLink)
  /\ PartOf.JSONLDContext partOfWithAliasedLink
     <> map_fold Spec.insertIfAbsent
          ({[ vocabURI := PartOf.alias partOfWithAliasedLink ]} : gmap string string)
          (PartOf.childContext partOfWithAliasedLink).
Proof.
  assert (PartOf.JSONLDContext partOfWithAliasedLink !! vocabURI = Some "as") as Hl
      by (vm_compute; reflexivity).
  repeat split; try exact Hl.
  - rewrite Hl. vm_compute. discriminate.
  - intros Heq. rewrite Heq in Hl. clear Heq. vm_compute in Hl. discriminate Hl.
Qed.

Lemma JSONLDContext_assigns_child_witness :
  PartOf.JSONLDContext partOfWithAliasedLink !! vocabURI = Some "as"
  /\ Liked.JSONLDContext freshLiked !! vocabURI = Some "".
Proof.
  destruct (JSONLDContext_assigns_child partOfWithAliasedLink freshLiked)
    as [(_ & _ & HP) (_ & _ & HL)].
  split; [exact HP | exact HL].
Defined.

(** C3: the code at the failing input.  This side has an "actor", the
    other side has none, yet [LessThan] does not answer false: the
    "actor" block falls through, and the "altitude" block, which only the
    other side has, answers true. *)
Theorem LessThan_nonnil_against_nil :
  Question.fields questionWithActor Question.ActivityStreamsActor = Some someProperty
  /\ Question.fields questionWithAltitude Question.ActivityStreamsActor = None
  /\ Question.LessThan questionWithActor questionWithAltitude = true.
Proof. repeat split; reflexivity. Qed.

Lemma dispatch_in_declared_order_witness :
  PartOf.DeserializePartOfProperty partOfManager partOfCollection ∅
  = (Some (PartOf.mk None
             (Some {| objAlias := ""; objBody := {[ "type" := JStr "Collection" ]} |})
             None None None None JNil None ""), None)
  /\ Liked.DeserializeLikedProperty likedManager likedOrderedCollection ∅
  = (Some (Liked.mk (Some {| objAlias := ""; objBody := orderedCollectionMap |})
             None None None JNil None ""), None).
Proof.
  split.
  - destruct (dispatch_in_declared_order partOfManager likedManager
                partOfCollection ∅ {[ "type" := JStr "Collection" ]}) as [HP _].
    rewrite HP by (vm_compute; reflexivity). vm_compute. reflexivity.
  - destruct (dispatch_in_declared_order partOfManager likedManager
                likedOrderedCollection ∅ orderedCollectionMap) as [_ HL].
    destruct HL as [_ HL]; [vm_compute; reflexivity|].
    apply (HL _ (Some {| objAlias := ""; objBody := orderedCollectionMap |}));
      vm_compute; reflexivity.
Defined.

Lemma string_is_IRI_iff_schemed_witness :
  (exists this,
      PartOf.DeserializePartOfProperty partOfManager partOfIRI ∅ = (Some this, None)
      /\ PartOf.IsIRI this = true)
  /\ (exists this,
      Liked.DeserializeLikedProperty likedManager likedIRI ∅ = (Some this, None)
      /\ Liked.IsIRI this = true).
Proof.
  split.
  - destruct (string_is_IRI_iff_schemed partOfManager likedManager partOfIRI ∅
                "https://example.com/coll") as [HP _].
    destruct HP as (this & Hd & Hi & _); [vm_compute; reflexivity|].
    exists this. split; [exact Hd|]. apply Hi. exists exampleURL.
    split; [vm_compute; reflexivity | discriminate].
  - destruct (string_is_IRI_iff_schemed partOfManager likedManager likedIRI ∅
                "https://example.com/coll") as [_ HL].
    destruct HL as (this & Hd & Hi & _); [vm_compute; reflexivity|].
    exists this. split; [exact Hd|]. apply Hi. exists exampleURL.
    split; [vm_compute; reflexivity | discriminate].
Defined.

Lemma partOf_deserialize_total_witness :
  snd (PartOf.DeserializePartOfProperty partOfManager partOfBareName ∅) = None
  /\ fst (PartOf.DeserializePartOfProperty partOfManager partOfBareName ∅)
     = Some (PartOf.mk None None None None None None (JStr "file.txt") None "").
Proof.
  destruct (partOf_deserialize_total partOfManager partOfBareName ∅) as (He & _ & Hu).
  split; [exact He|].
  apply (Hu (JStr "file.txt")).
  - vm_compute; reflexivity.
  - intros [u (s & [= <-] & Hp & Hs)]. vm_compute in Hp.
    injection Hp as <-. by apply Hs.
  - intros (m & [=] & _).
Defined.

(** C8, as first stated, fails: "HTTP://ex.example/x" has a scheme, and
    comes back as "http://ex.example/x", because [url.Parse] lower-cases
    the scheme. *)
Lemma iri_roundtrip_changes_scheme_case :
  exists this,
    PartOf.DeserializePartOfProperty partOfManager partOfUpperScheme ∅ = (Some this, None)
    /\ PartOf.Serialize this = Ok (JStr "http://ex.example/x")
    /\ PartOf.Serialize this <> Ok (JStr "HTTP://ex.example/x").
Proof.
  exists (PartOf.mk None None None None None None JNil (Some lowerCasedURL) "").
  split; [vm_compute; reflexivity|].
  split; [vm_compute; reflexivity|].
  intros He. vm_compute in He. discriminate He.
Qed.

Lemma iri_serializes_as_url_String_witness :
  exists this,
    PartOf.DeserializePartOfProperty partOfManager partOfIRI ∅ = (Some this, None)
    /\ PartOf.Serialize this = Ok (JStr "https://example.com/coll").
Proof.
  destruct (iri_serializes_as_url_String partOfManager likedManager partOfIRI ∅
              "https://example.com/coll" exampleURL) as [HP _].
  - vm_compute; reflexivity.
  - discriminate.
  - destruct HP as (this & Hd & Hs & _); [vm_compute; reflexivity|].
    exists this. split; [exact Hd | exact Hs].
Defined.

Lemma HasAny_iff_KindIndex_witness :
  (exists this,
      PartOf.DeserializePartOfProperty partOfManager partOfNumber ∅ = (Some this, None)
      /\ PartOf.HasAny this = false
      /\ PartOf.KindIndex this = (-1)%Z
      /\ PartOf.Serialize this = Ok (JNum 5))
  /\ (exists this,
      Liked.DeserializeLikedProperty likedManager likedArray ∅ = (Some this, None)
      /\ Liked.HasAny this = false
      /\ Liked.KindIndex this = (-1)%Z
      /\ Liked.Serialize this = Ok (JArr [JNum 1])).
Proof.
  destruct (@HasAny_iff_KindIndex modelUrl Obj Obj Obj Obj Obj Obj _ _ _ _ _ _)
    as (_ & _ & HP & HL).
  split.
  - apply (HP partOfManager partOfNumber ∅ (JNum 5)); [vm_compute; reflexivity|].
    left. by exists 5%Z.
  - apply (HL likedManager likedArray ∅ (JArr [JNum 1])); [vm_compute; reflexivity|].
    right. by eexists.
Defined.

Lemma DeserializeQuestion_error_iff_witness :
  is_Err (Question.DeserializeQuestion questionManager partOfIRI ∅) = true
  /\ is_Err (Question.DeserializeQuestion questionManager questionMultiTyped asAlias)
     = false.
Proof.
  split.
  - apply (proj1 (DeserializeQuestion_error_iff questionManager partOfIRI ∅)).
    left. vm_compute; reflexivity.
  - destruct (DeserializeQuestion_error_iff questionManager questionMultiTyped asAlias)
      as [_ Hiff].
    assert (forall f, is_Err (questionManager f questionMultiTyped asAlias) = false) as Hok.
    { intros f. unfold questionManager.
      by destruct (questionMultiTyped !! _). }
    apply not_true_is_false. intros He. apply (Hiff Hok) in He.
    destruct He as [He|[(s & He & _)|[(l & He & Hl)|(v & He & _ & Hl)]]].
    + vm_compute in He. discriminate He.
    + vm_compute in He. discriminate He.
    + assert (l = [JStr "Note"; JStr "as:Question"]) as ->.
      { vm_compute in He. by injection He as <-. }
      apply (Hl (JStr "as:Question")).
      * apply list_elem_of_In. right; left; reflexivity.
      * exists "as:Question". split; [reflexivity | vm_compute; reflexivity].
    + apply (Hl [JStr "Note"; JStr "as:Question"]).
      vm_compute in He. by injection He as <-.
Defined.

Lemma unknown_properties_survive_witness :
  exists q,
    Question.DeserializeQuestion questionManager questionFoo ∅ = Ok q
    /\ Question.GetUnknownProperties q !! "foo" = Some (JStr "bar")
    /\ Question.GetUnknownProperties q !! "type" = None.
Proof.
  destruct (unknown_properties_survive questionManager questionFoo ∅)
    as (q & Hd & Hu & _).
  - vm_compute; reflexivity.
  - intros f. unfold questionManager. by destruct (questionFoo !! _).
  - exists q. split; [exact Hd|]. split.
    + rewrite Hu. vm_compute; reflexivity.
    + rewrite Hu. vm_compute; reflexivity.
Defined.
End Instances.

(** ** More on the functional properties *)

Lemma string_compare_refl (s : string) : String.compare s s = Eq.
Proof.
  induction s as [|c s IH]; [reflexivity|]. simpl.
  assert (Ascii.compare c c = Eq) as -> by apply N.compare_refl.
  exact IH.
Qed.

Lemma string_ltb_irrefl (s : string) : String.ltb s s = false.
Proof. unfold String.ltb. by rewrite string_compare_refl. Qed.

Lemma string_ltb_asym (s t : string) :
  String.ltb s t = true -> String.ltb t s = false.
Proof.
  unfold String.ltb. rewrite (String.compare_antisym t s).
  by destruct (String.compare s t).
Qed.

Section PropertyOps.
Context `{NetUrl}.
Context {Link Collection CollectionPage Mention
         OrderedCollection OrderedCollectionPage : Type}.
Context `{!VocabType Link, !VocabType Collection, !VocabType CollectionPage,
          !VocabType Mention, !VocabType OrderedCollection,
          !VocabType OrderedCollectionPage}.
Context `{!VocabLess Link, !VocabLess Collection, !VocabLess CollectionPage,
          !VocabLess Mention, !VocabLess OrderedCollection,
          !VocabLess OrderedCollectionPage}.

Abbreviation PartOfProp :=
  (PartOf.ActivityStreamsPartOfProperty Link Collection CollectionPage Mention
     OrderedCollection OrderedCollectionPage).
Abbreviation LikedProp :=
  (Liked.ActivityStreamsLikedProperty OrderedCollection Collection CollectionPage
     OrderedCollectionPage).

(** X1: [Clear] leaves nothing behind but the alias: no kind is reported,
    the unknown payload is gone as well (so [Serialize] returns nil), the
    context is the bare namespace entry, and clearing twice is clearing
    once. *)
Theorem Clear_leaves_only_alias (this : PartOfProp) (thisL : LikedProp) :
  (PartOf.HasAny (PartOf.Clear this) = false
   /\ PartOf.KindIndex (PartOf.Clear this) = (-1)%Z
   /\ PartOf.Serialize (PartOf.Clear this) = Ok JNil
   /\ PartOf.JSONLDContext (PartOf.Clear this) = {[ vocabURI := PartOf.alias this ]}
   /\ PartOf.Clear (PartOf.Clear this) = PartOf.Clear this)
  /\ (Liked.HasAny (Liked.Clear thisL) = false
   /\ Liked.KindIndex (Liked.Clear thisL) = (-1)%Z
   /\ Liked.Serialize (Liked.Clear thisL) = Ok JNil
   /\ Liked.JSONLDContext (Liked.Clear thisL) = {[ vocabURI := Liked.alias thisL ]}
   /\ Liked.Clear (Liked.Clear thisL) = Liked.Clear thisL).
Proof.
  repeat split; reflexivity.
Qed.

(** The position of a kind in the declared order, as [KindIndex] numbers
    it. *)
Lemma partOf_call_KindIndex (this : PartOfProp) c :
  PartOf.KindIndex (PartOf.call this c)
  = if PartOf.argNonNil c
    then (if (PartOf.flagOf c =? 6)%nat then (-2)%Z else Z.of_nat (PartOf.flagOf c))
    else (-1)%Z.
Proof. destruct c as [v|v|v|v|v|v|v]; destruct v; reflexivity. Qed.

Lemma liked_call_KindIndex (this : LikedProp) c :
  Liked.KindIndex (Liked.call this c)
  = if Liked.argNonNil c
    then (if (Liked.flagOf c =? 4)%nat then (-2)%Z else Z.of_nat (Liked.flagOf c))
    else (-1)%Z.
Proof. destruct c as [v|v|v|v|v]; destruct v; reflexivity. Qed.

(** X2: after [Set<Kind>(v)], [KindIndex] is the position of the kind in the
    declared order of the property (-2 for [SetIRI]) when [v] is non-nil,
    and -1 when [v] is nil; whatever the property held before, unknown
    payload included, is gone. *)
Theorem KindIndex_after_Set (this : PartOfProp) c (thisL : LikedProp) cL :
  (PartOf.KindIndex (PartOf.call this c)
   = (if PartOf.argNonNil c
      then (if (PartOf.flagOf c =? 6)%nat then (-2)%Z else Z.of_nat (PartOf.flagOf c))
      else (-1)%Z)
   /\ PartOf.unknown (PartOf.call this c) = JNil
   /\ PartOf.call this c = PartOf.call (PartOf.Clear this) c)
  /\ (Liked.KindIndex (Liked.call thisL cL)
   = (if Liked.argNonNil cL
      then (if (Liked.flagOf cL =? 4)%nat then (-2)%Z else Z.of_nat (Liked.flagOf cL))
      else (-1)%Z)
   /\ Liked.unknown (Liked.call thisL cL) = JNil
   /\ Liked.call thisL cL = Liked.call (Liked.Clear thisL) cL).
Proof.
  rewrite partOf_call_KindIndex, liked_call_KindIndex.
  repeat split; try reflexivity.
  all: try (destruct c; reflexivity).
  all: destruct cL; reflexivity.
Qed.

Lemma partOf_dispatch_slots (mgr : PartOf.Manager Link Collection CollectionPage Mention
      OrderedCollection OrderedCollectionPage) alias m aliasMap this :
  PartOf.dispatch mgr alias m aliasMap = Some this ->
  (PartOf.slotsUsed this <= 1)%nat /\ PartOf.alias this = alias.
Proof.
  unfold PartOf.dispatch.
  repeat match goal with
         | |- context [match ?d mgr m aliasMap with _ => _ end] =>
             destruct (d mgr m aliasMap) as [[?|]|]
         end; intros [= <-]; split; reflexivity || (cbv; lia).
Qed.

Lemma liked_dispatch_slots (mgr : Liked.Manager OrderedCollection Collection
      CollectionPage OrderedCollectionPage) alias m aliasMap this :
  Liked.dispatch mgr alias m aliasMap = Some this ->
  (Liked.slotsUsed this <= 1)%nat /\ Liked.alias this = alias.
Proof.
  unfold Liked.dispatch.
  repeat match goal with
         | |- context [match ?d mgr m aliasMap with _ => _ end] =>
             destruct (d mgr m aliasMap) as [[?|]|]
         end; intros [= <-]; split; reflexivity || (cbv; lia).
Qed.

Lemma partOf_deserialize_slots
    (mgr : PartOf.Manager Link Collection CollectionPage Mention
             OrderedCollection OrderedCollectionPage) m aliasMap this :
  fst (PartOf.DeserializePartOfProperty mgr m aliasMap) = Some this ->
  (PartOf.slotsUsed this <= 1)%nat /\ PartOf.alias this = lookupAlias aliasMap.
Proof.
  unfold PartOf.DeserializePartOfProperty.
  destruct (m !! _) as [i|]; [|discriminate].
  destruct (parseIRI i); [intros [= <-]; split; [cbv; lia | reflexivity]|].
  destruct (PartOf.dispatchValue _ _ _ _) as [p|] eqn:Hd.
  - intros [= <-]. destruct i; try discriminate.
    by apply partOf_dispatch_slots in Hd.
  - intros [= <-]. split; [|reflexivity]. destruct i; cbv; lia.
Qed.

Lemma liked_deserialize_slots
    (mgr : Liked.Manager OrderedCollection Collection CollectionPage
             OrderedCollectionPage) m aliasMap this :
  fst (Liked.DeserializeLikedProperty mgr m aliasMap) = Some this ->
  (Liked.slotsUsed this <= 1)%nat /\ Liked.alias this = lookupAlias aliasMap.
Proof.
  unfold Liked.DeserializeLikedProperty.
  destruct (m !! _) as [i|]; [|discriminate].
  destruct (parseIRI i); [intros [= <-]; split; [cbv; lia | reflexivity]|].
  destruct (Liked.dispatchValue _ _ _ _) as [p|] eqn:Hd.
  - intros [= <-]. destruct i; try discriminate.
    by apply liked_dispatch_slots in Hd.
  - intros [= <-]. split; [|reflexivity]. destruct i; cbv; lia.
Qed.

(** X3: the property never has more than one slot in use.  Whatever the
    typed deserializers return, a deserialized property uses at most one of
    its typed, IRI and unknown slots and carries the alias registered for
    the vocabulary; every [Set<Kind>] leaves at most one slot in use, even
    when started from a property that had several; [Clear] leaves none. *)
Theorem at_most_one_slot :
  (forall mgr m aliasMap (this : PartOfProp),
      fst (PartOf.DeserializePartOfProperty mgr m aliasMap) = Some this ->
      (PartOf.slotsUsed this <= 1)%nat /\ PartOf.alias this = lookupAlias aliasMap)
  /\ (forall (this : PartOfProp) c, (PartOf.slotsUsed (PartOf.call this c) <= 1)%nat)
  /\ (forall this : PartOfProp, PartOf.slotsUsed (PartOf.Clear this) = 0%nat)
  /\ (forall mgr m aliasMap (this : LikedProp),
      fst (Liked.DeserializeLikedProperty mgr m aliasMap) = Some this ->
      (Liked.slotsUsed this <= 1)%nat /\ Liked.alias this = lookupAlias aliasMap)
  /\ (forall (this : LikedProp) c, (Liked.slotsUsed (Liked.call this c) <= 1)%nat)
  /\ (forall this : LikedProp, Liked.slotsUsed (Liked.Clear this) = 0%nat).
Proof.
  split; [exact partOf_deserialize_slots|].
  split; [intros this c; destruct c as [v|v|v|v|v|v|v]; destruct v; cbv; lia|].
  split; [reflexivity|].
  split; [exact liked_deserialize_slots|].
  split; [intros this c; destruct c as [v|v|v|v|v]; destruct v; cbv; lia|].
  reflexivity.
Qed.

Ltac partOf_kind l c cp me oc ocp i :=
  destruct l as [l|];
  [| destruct c as [c|];
     [| destruct cp as [cp|];
        [| destruct me as [me|];
           [| destruct oc as [oc|];
              [| destruct ocp as [ocp|];
                 [| destruct i as [i|] ]]]]]].

Ltac liked_kind oc c cp ocp i :=
  destruct oc as [oc|];
  [| destruct c as [c|];
     [| destruct cp as [cp|];
        [| destruct ocp as [ocp|];
           [| destruct i as [i|] ]]]].

(** X4: [LessThan] orders by [KindIndex] first: a property of a smaller
    kind index is less, one of a larger kind index is not, so an IRI comes
    before an empty or unknown-only property, which comes before every
    typed value.  The comparison always returns: in the IRI case the other
    side holds an IRI as well, so no nil URL is rendered. *)
Theorem LessThan_orders_by_kind (this o : PartOfProp) (thisL oL : LikedProp) :
  (is_Some (PartOf.LessThan this o)
   /\ ((PartOf.KindIndex this < PartOf.KindIndex o)%Z ->
       PartOf.LessThan this o = Some true)
   /\ ((PartOf.KindIndex o < PartOf.KindIndex this)%Z ->
       PartOf.LessThan this o = Some false))
  /\ (is_Some (Liked.LessThan thisL oL)
   /\ ((Liked.KindIndex thisL < Liked.KindIndex oL)%Z ->
       Liked.LessThan thisL oL = Some true)
   /\ ((Liked.KindIndex oL < Liked.KindIndex thisL)%Z ->
       Liked.LessThan thisL oL = Some false)).
Proof.
  split.
  - split; [|split].
    + destruct this as [l c cp me oc ocp un i a], o as [l' c' cp' me' oc' ocp' un' i' a'].
      partOf_kind l c cp me oc ocp i; partOf_kind l' c' cp' me' oc' ocp' i';
        cbv -[vt_LessThan String.ltb url_String]; eauto.
    + intros Hlt. unfold PartOf.LessThan.
      apply Z.ltb_lt in Hlt. by rewrite Hlt.
    + intros Hlt. unfold PartOf.LessThan.
      assert ((PartOf.KindIndex this <? PartOf.KindIndex o)%Z = false) as ->
          by (apply Z.ltb_ge; lia).
      assert ((PartOf.KindIndex this >? PartOf.KindIndex o)%Z = true) as ->
          by (apply Z.gtb_lt; lia).
      reflexivity.
  - split; [|split].
    + destruct thisL as [oc c cp ocp un i a], oL as [oc' c' cp' ocp' un' i' a'].
      liked_kind oc c cp ocp i; liked_kind oc' c' cp' ocp' i';
        cbv -[vt_LessThan String.ltb url_String]; eauto.
    + intros Hlt. unfold Liked.LessThan.
      apply Z.ltb_lt in Hlt. by rewrite Hlt.
    + intros Hlt. unfold Liked.LessThan.
      assert ((Liked.KindIndex thisL <? Liked.KindIndex oL)%Z = false) as ->
          by (apply Z.ltb_ge; lia).
      assert ((Liked.KindIndex thisL >? Liked.KindIndex oL)%Z = true) as ->
          by (apply Z.gtb_lt; lia).
      reflexivity.
Qed.

(** X5: two "partOf" properties of the same kind.  For a typed kind both
    sides hold a value of that kind and the result is that kind's own
    [LessThan], called with the other side's non-nil value; two IRIs compare
    by the byte order of their string renderings; two properties without
    typed value or IRI are never less than one another, whatever unknown
    payloads they carry. *)
Theorem partOf_LessThan_same_kind (this o : PartOfProp) :
  (PartOf.KindIndex this = 0%Z -> PartOf.KindIndex o = 0%Z ->
     exists v w, PartOf.activitystreamsLinkMember this = Some v
       /\ PartOf.activitystreamsLinkMember o = Some w
       /\ PartOf.LessThan this o = Some (vt_LessThan v (Some w)))
  /\ (PartOf.KindIndex this = 1%Z -> PartOf.KindIndex o = 1%Z ->
     exists v w, PartOf.activitystreamsCollectionMember this = Some v
       /\ PartOf.activitystreamsCollectionMember o = Some w
       /\ PartOf.LessThan this o = Some (vt_LessThan v (Some w)))
  /\ (PartOf.KindIndex this = 2%Z -> PartOf.KindIndex o = 2%Z ->
     exists v w, PartOf.activitystreamsCollectionPageMember this = Some v
       /\ PartOf.activitystreamsCollectionPageMember o = Some w
       /\ PartOf.LessThan this o = Some (vt_LessThan v (Some w)))
  /\ (PartOf.KindIndex this = 3%Z -> PartOf.KindIndex o = 3%Z ->
     exists v w, PartOf.activitystreamsMentionMember this = Some v
       /\ PartOf.activitystreamsMentionMember o = Some w
       /\ PartOf.LessThan this o = Some (vt_LessThan v (Some w)))
  /\ (PartOf.KindIndex this = 4%Z -> PartOf.KindIndex o = 4%Z ->
     exists v w, PartOf.activitystreamsOrderedCollectionMember this = Some v
       /\ PartOf.activitystreamsOrderedCollectionMember o = Some w
       /\ PartOf.LessThan this o = Some (vt_LessThan v (Some w)))
  /\ (PartOf.KindIndex this = 5%Z -> PartOf.KindIndex o = 5%Z ->
     exists v w, PartOf.activitystreamsOrderedCollectionPageMember this = Some v
       /\ PartOf.activitystreamsOrderedCollectionPageMember o = Some w
       /\ PartOf.LessThan this o = Some (vt_LessThan v (Some w)))
  /\ (PartOf.KindIndex this = (-2)%Z -> PartOf.KindIndex o = (-2)%Z ->
     exists u u', PartOf.iri this = Some u /\ PartOf.iri o = Some u'
       /\ PartOf.LessThan this o = Some (String.ltb (url_String u) (url_String u')))
  /\ (PartOf.KindIndex this = (-1)%Z -> PartOf.KindIndex o = (-1)%Z ->
     PartOf.LessThan this o = Some false).
Proof.
  destruct this as [l c cp me oc ocp un i a], o as [l' c' cp' me' oc' ocp' un' i' a'].
  repeat split; intros H1 H2;
    partOf_kind l c cp me oc ocp i; try discriminate H1;
    partOf_kind l' c' cp' me' oc' ocp' i'; try discriminate H2;
    try reflexivity; do 2 eexists; repeat split.
Qed.


(** X7: [LessThan] is irreflexive and asymmetric as soon as the [LessThan]
    of each kind is, on non-nil values: no property is less than itself, and
    of two properties at most one is less than the other. *)
Theorem LessThan_strict (this o : PartOfProp) (thisL oL : LikedProp) :
  (forall v : Link, vt_LessThan v (Some v) = false) ->
  (forall v : Collection, vt_LessThan v (Some v) = false) ->
  (forall v : CollectionPage, vt_LessThan v (Some v) = false) ->
  (forall v : Mention, vt_LessThan v (Some v) = false) ->
  (forall v : OrderedCollection, vt_LessThan v (Some v) = false) ->
  (forall v : OrderedCollectionPage, vt_LessThan v (Some v) = false) ->
  (forall v w : Link, vt_LessThan v (Some w) = true -> vt_LessThan w (Some v) = false) ->
  (forall v w : Collection, vt_LessThan v (Some w) = true -> vt_LessThan w (Some v) = false) ->
  (forall v w : CollectionPage,
      vt_LessThan v (Some w) = true -> vt_LessThan w (Some v) = false) ->
  (forall v w : Mention, vt_LessThan v (Some w) = true -> vt_LessThan w (Some v) = false) ->
  (forall v w : OrderedCollection,
      vt_LessThan v (Some w) = true -> vt_LessThan w (Some v) = false) ->
  (forall v w : OrderedCollectionPage,
      vt_LessThan v (Some w) = true -> vt_LessThan w (Some v) = false) ->
  (PartOf.LessThan this this = Some false
   /\ (PartOf.LessThan this o = Some true -> PartOf.LessThan o this = Some false))
  /\ (Liked.LessThan thisL thisL = Some false
   /\ (Liked.LessThan thisL oL = Some true -> Liked.LessThan oL thisL = Some false)).
Proof.
  intros Il Ic Icp Ime Ioc Iocp Al Ac Acp Ame Aoc Aocp.
  split; split.
  - destruct this as [l c cp me oc ocp un i a].
    partOf_kind l c cp me oc ocp i; cbv -[vt_LessThan String.ltb url_String];
      rewrite ?Il, ?Ic, ?Icp, ?Ime, ?Ioc, ?Iocp, ?string_ltb_irrefl; reflexivity.
  - destruct this as [l c cp me oc ocp un i a], o as [l' c' cp' me' oc' ocp' un' i' a'].
    partOf_kind l c cp me oc ocp i; partOf_kind l' c' cp' me' oc' ocp' i';
      cbv -[vt_LessThan String.ltb url_String]; try done;
      intros [= Hlt]; f_equal; auto using string_ltb_asym.
  - destruct thisL as [oc c cp ocp un i a].
    liked_kind oc c cp ocp i; cbv -[vt_LessThan String.ltb url_String];
      rewrite ?Ic, ?Icp, ?Ioc, ?Iocp, ?string_ltb_irrefl; reflexivity.
  - destruct thisL as [oc c cp ocp un i a], oL as [oc' c' cp' ocp' un' i' a'].
    liked_kind oc c cp ocp i; liked_kind oc' c' cp' ocp' i';
      cbv -[vt_LessThan String.ltb url_String]; try done;
      intros [= Hlt]; f_equal; auto using string_ltb_asym.
Qed.

Context {VType : Type}.
Context `{!PartOf.TypeViews (Link:=Link) (Collection:=Collection)
            (CollectionPage:=CollectionPage) (Mention:=Mention)
            (OrderedCollection:=OrderedCollection)
            (OrderedCollectionPage:=OrderedCollectionPage) VType}.
Context `{!Liked.TypeViews (OrderedCollection:=OrderedCollection)
            (Collection:=Collection) (CollectionPage:=CollectionPage)
            (OrderedCollectionPage:=OrderedCollectionPage) VType}.

(** X8: [SetType] on "partOf".  It fails exactly when the value is nil or
    satisfies none of the six interfaces, and then leaves the property as it
    was; when it succeeds the property holds exactly one typed value and
    nothing else, and keeps its alias. *)
Theorem partOf_SetType_outcome (t : option VType) (this : PartOfProp) :
  (snd (PartOf.SetType t this) = Some ErrIllegalType
   <-> PartOf.assert PartOf.asLink t = None
       /\ PartOf.assert PartOf.asCollection t = None
       /\ PartOf.assert PartOf.asCollectionPage t = None
       /\ PartOf.assert PartOf.asMention t = None
       /\ PartOf.assert PartOf.asOrderedCollection t = None
       /\ PartOf.assert PartOf.asOrderedCollectionPage t = None)
  /\ (snd (PartOf.SetType t this) = Some ErrIllegalType ->
      fst (PartOf.SetType t this) = this)
  /\ (snd (PartOf.SetType t this) = None ->
      PartOf.slotsUsed (fst (PartOf.SetType t this)) = 1%nat
      /\ (0 <= PartOf.KindIndex (fst (PartOf.SetType t this)))%Z
      /\ PartOf.unknown (fst (PartOf.SetType t this)) = JNil
      /\ PartOf.iri (fst (PartOf.SetType t this)) = None
      /\ PartOf.alias (fst (PartOf.SetType t this)) = PartOf.alias this)
  /\ PartOf.SetType None this = (this, Some ErrIllegalType).
Proof.
  unfold PartOf.SetType.
  destruct (PartOf.assert PartOf.asLink t);
    [|destruct (PartOf.assert PartOf.asCollection t);
      [|destruct (PartOf.assert PartOf.asCollectionPage t);
        [|destruct (PartOf.assert PartOf.asMention t);
          [|destruct (PartOf.assert PartOf.asOrderedCollection t);
            [|destruct (PartOf.assert PartOf.asOrderedCollectionPage t)]]]]].
  all: cbn [fst snd]; repeat split; try done.
  all: try (intros; cbv; lia).
  all: by intros (? & ? & ? & ? & ? & ?).
Qed.

(** X9: the same for "liked" and its four interfaces. *)
Theorem liked_SetType_outcome (t : option VType) (this : LikedProp) :
  (snd (Liked.SetType t this) = Some ErrIllegalType
   <-> Liked.assert Liked.asOrderedCollection t = None
       /\ Liked.assert Liked.asCollection t = None
       /\ Liked.assert Liked.asCollectionPage t = None
       /\ Liked.assert Liked.asOrderedCollectionPage t = None)
  /\ (snd (Liked.SetType t this) = Some ErrIllegalType ->
      fst (Liked.SetType t this) = this)
  /\ (snd (Liked.SetType t this) = None ->
      Liked.slotsUsed (fst (Liked.SetType t this)) = 1%nat
      /\ (0 <= Liked.KindIndex (fst (Liked.SetType t this)))%Z
      /\ Liked.unknown (fst (Liked.SetType t this)) = JNil
      /\ Liked.iri (fst (Liked.SetType t this)) = None
      /\ Liked.alias (fst (Liked.SetType t this)) = Liked.alias this)
  /\ Liked.SetType None this = (this, Some ErrIllegalType).
Proof.
  unfold Liked.SetType.
  destruct (Liked.assert Liked.asOrderedCollection t);
    [|destruct (Liked.assert Liked.asCollection t);
      [|destruct (Liked.assert Liked.asCollectionPage t);
        [|destruct (Liked.assert Liked.asOrderedCollectionPage t)]]].
  all: cbn [fst snd]; repeat split; try done.
  all: try (intros; cbv; lia).
  all: by intros (? & ? & ? & ?).
Qed.

(** X10: [GetType] returns nil exactly when the property holds no typed
    value (an IRI, an unknown payload or nothing), that is when [KindIndex]
    is negative. *)
Theorem GetType_nil_iff (this : PartOfProp) (thisL : LikedProp) :
  (PartOf.GetType this = None <-> (PartOf.KindIndex this < 0)%Z)
  /\ (Liked.GetType thisL = None <-> (Liked.KindIndex thisL < 0)%Z).
Proof.
  split.
  - destruct this as [l c cp me oc ocp un i a].
    partOf_kind l c cp me oc ocp i; cbv; split; try done; intros [=].
  - destruct thisL as [oc c cp ocp un i a].
    liked_kind oc c cp ocp i; cbv; split; try done; intros [=].
Qed.

(** X11: [SetType] followed by [GetType] gives the value back.  A type
    assertion hands out the very value it was asked about; when the views of
    [t] are of that kind, a successful [SetType(t)] makes [GetType] return
    [t], whatever the property held before. *)
Theorem GetType_after_SetType (d : VType) (this : PartOfProp) (thisL : LikedProp) :
  (forall x, PartOf.asLink d = Some x -> PartOf.ofLink x = d) ->
  (forall x, PartOf.asCollection d = Some x -> PartOf.ofCollection x = d) ->
  (forall x, PartOf.asCollectionPage d = Some x -> PartOf.ofCollectionPage x = d) ->
  (forall x, PartOf.asMention d = Some x -> PartOf.ofMention x = d) ->
  (forall x, PartOf.asOrderedCollection d = Some x -> PartOf.ofOrderedCollection x = d) ->
  (forall x, PartOf.asOrderedCollectionPage d = Some x ->
             PartOf.ofOrderedCollectionPage x = d) ->
  (forall x, Liked.asOrderedCollection d = Some x -> Liked.ofOrderedCollection x = d) ->
  (forall x, Liked.asCollection d = Some x -> Liked.ofCollection x = d) ->
  (forall x, Liked.asCollectionPage d = Some x -> Liked.ofCollectionPage x = d) ->
  (forall x, Liked.asOrderedCollectionPage d = Some x ->
             Liked.ofOrderedCollectionPage x = d) ->
  (snd (PartOf.SetType (Some d) this) = None ->
     PartOf.GetType (fst (PartOf.SetType (Some d) this)) = Some d)
  /\ (snd (Liked.SetType (Some d) thisL) = None ->
     Liked.GetType (fst (Liked.SetType (Some d) thisL)) = Some d).
Proof.
  intros P1 P2 P3 P4 P5 P6 L1 L2 L3 L4. split.
  - unfold PartOf.SetType, PartOf.assert.
    destruct (PartOf.asLink d) eqn:E1;
      [|destruct (PartOf.asCollection d) eqn:E2;
        [|destruct (PartOf.asCollectionPage d) eqn:E3;
          [|destruct (PartOf.asMention d) eqn:E4;
            [|destruct (PartOf.asOrderedCollection d) eqn:E5;
              [|destruct (PartOf.asOrderedCollectionPage d) eqn:E6]]]]].
    all: cbn [fst snd]; intros Hs; try discriminate Hs.
    all: unfold PartOf.GetType; cbn; f_equal; auto.
  - unfold Liked.SetType, Liked.assert.
    destruct (Liked.asOrderedCollection d) eqn:E1;
      [|destruct (Liked.asCollection d) eqn:E2;
        [|destruct (Liked.asCollectionPage d) eqn:E3;
          [|destruct (Liked.asOrderedCollectionPage d) eqn:E4]]].
    all: cbn [fst snd]; intros Hs; try discriminate Hs.
    all: unfold Liked.GetType; cbn; f_equal; auto.
Qed.

(** X12: a value that "partOf" does not recognise survives the round trip.
    When the key holds a value that is neither a string with a URL scheme
    nor a map accepted by a candidate (a bare string, a number, a boolean,
    an array, nil, a map that every candidate rejects), deserializing and
    then serializing returns that very value, and the property reports no
    kind and the bare namespace context. *)
Theorem partOf_unrecognized_roundtrip
    (mgr : PartOf.Manager Link Collection CollectionPage Mention
             OrderedCollection OrderedCollectionPage)
    (m : gmap string JValue) (aliasMap : gmap string string) (i : JValue) :
  m !! qualify (lookupAlias aliasMap) "partOf" = Some i ->
  (~ exists u, Spec.schemedIRI i u) ->
  ~ Spec.partOfAccepted mgr i aliasMap ->
  exists this,
    PartOf.DeserializePartOfProperty mgr m aliasMap = (Some this, None)
    /\ PartOf.Serialize this = Ok i
    /\ PartOf.HasAny this = false
    /\ PartOf.GetType this = None
    /\ PartOf.JSONLDContext this = {[ vocabURI := lookupAlias aliasMap ]}.
Proof.
  intros Hk Hn Ha. unfold PartOf.DeserializePartOfProperty. rewrite Hk.
  apply parseIRI_None in Hn. rewrite Hn.
  rewrite (partOf_dispatchValue_None _ _ _ _ Ha).
  eexists. repeat split.
Qed.

End PropertyOps.

(** ** More on the Question type *)

Lemma declared_nth (f : Question.Field) :
  nth_error Question.declared (Question.fieldIndex f) = Some f.
Proof. destruct f; reflexivity. Qed.

Lemma fieldIndex_inj (f g : Question.Field) :
  Question.fieldIndex f = Question.fieldIndex g -> f = g.
Proof.
  intros He. pose proof (declared_nth f) as Hf. rewrite He, declared_nth in Hf.
  congruence.
Qed.

Lemma declared_complete (f : Question.Field) : f ∈ Question.declared.
Proof.
  apply list_elem_of_In. eapply nth_error_In. apply declared_nth.
Qed.

Lemma declared_NoDup : NoDup Question.declared.
Proof.
  apply (NoDup_fmap_1 Question.fieldIndex).
  change (Question.fieldIndex <$> Question.declared) with (seq 0 39).
  apply NoDup_seq.
Qed.

Section QuestionOps.
Context {P : Type} `{!Question.Property P}.

Abbreviation Qn := (Question.ActivityStreamsQuestion P).

Lemma setField_same (f : Question.Field) (p : option P) (this : Qn) :
  Question.fields (Question.setField f p this) f = p.
Proof. simpl. by rewrite Nat.eqb_refl. Qed.

Lemma setField_other (f g : Question.Field) (p : option P) (this : Qn) :
  f <> g -> Question.fields (Question.setField f p this) g = Question.fields this g.
Proof.
  intros Hne. simpl.
  destruct (Nat.eqb_spec (Question.fieldIndex f) (Question.fieldIndex g)) as [He|]; [|done].
  by apply fieldIndex_inj in He.
Qed.

Lemma deserializeKnown_fields (mgr : Question.Manager P) fs m aliasMap (this q : Qn) :
  NoDup fs ->
  Question.deserializeKnown mgr fs m aliasMap this = Ok q ->
  forall g,
    (g ∈ fs -> exists p, mgr g m aliasMap = Ok p
                       /\ Question.fields q g
                          = if isSome p then p else Question.fields this g)
    /\ (g ∉ fs -> Question.fields q g = Question.fields this g).
Proof.
  intros Hnd. revert this. induction Hnd as [|f fs Hf Hnd IH]; intros this; simpl.
  - intros [= <-] g. split; [by intros ?%elem_of_nil | done].
  - destruct (mgr f m aliasMap) as [p|] eqn:Hm; [|discriminate].
    intros Hq g. destruct (IH _ Hq g) as [Hin Hout]. split.
    + intros [->|Hg]%elem_of_cons.
      * exists p. split; [done|]. rewrite (Hout Hf).
        destruct p; [apply setField_same | reflexivity].
      * destruct (Hin Hg) as (p' & Hp' & Hfq). exists p'. split; [done|].
        rewrite Hfq. destruct (isSome p'); [done|].
        destruct p; [|reflexivity]. apply setField_other. by intros ->.
    + intros Hg. apply not_elem_of_cons in Hg as [Hne Hg]. rewrite (Hout Hg).
      destruct p; [|reflexivity]. by apply setField_other.
Qed.

Lemma deserializeKnown_keeps (mgr : Question.Manager P) fs m aliasMap (this q : Qn) :
  Question.deserializeKnown mgr fs m aliasMap this = Ok q ->
  Question.alias q = Question.alias this
  /\ Question.unknown q = Question.unknown this.
Proof.
  revert this. induction fs as [|f fs IH]; intros this; simpl.
  - by intros [= <-].
  - destruct (mgr f m aliasMap) as [p|]; [|discriminate].
    intros Hq. destruct (IH _ Hq) as [-> ->]. by destruct p.
Qed.

(** X13: a deserialized Question holds, in each field, exactly what that
    field's own deserializer returned for the input map (nil where it
    returned nil), and carries the alias registered for the vocabulary.  No
    field is filled from another property's deserializer. *)
Theorem DeserializeQuestion_fields
    (mgr : Question.Manager P) (m : gmap string JValue)
    (aliasMap : gmap string string) (q : Qn) :
  Question.DeserializeQuestion mgr m aliasMap = Ok q ->
  (forall f, mgr f m aliasMap = Ok (Question.fields q f))
  /\ Question.alias q = lookupAlias aliasMap.
Proof.
  unfold Question.DeserializeQuestion.
  destruct (Question.checkType _ _); [discriminate|].
  destruct (Question.deserializeKnown _ _ _ _ _) as [q'|] eqn:Hd; [|discriminate].
  intros [= <-]. cbn [Question.fields Question.alias]. split.
  - intros f.
    destruct (deserializeKnown_fields _ _ _ _ _ _ declared_NoDup Hd f) as [Hin _].
    destruct (Hin (declared_complete f)) as (p & Hp & Hf).
    rewrite Hp, Hf. by destruct p.
  - by destruct (deserializeKnown_keeps _ _ _ _ _ _ Hd) as [-> _].
Qed.

Lemma deserializeKnown_error (mgr : Question.Manager P) fs m aliasMap (this : Qn) e :
  Question.deserializeKnown mgr fs m aliasMap this = Err e
  <-> exists pre f post,
        fs = (pre ++ f :: post)%list
        /\ (forall g, g ∈ pre -> is_Err (mgr g m aliasMap) = false)
        /\ mgr f m aliasMap = Err e.
Proof.
  revert this. induction fs as [|f fs IH]; intros this; simpl.
  - split; [discriminate|]. intros (pre & g & post & He & _). by destruct pre.
  - destruct (mgr f m aliasMap) as [p|e'] eqn:Hm.
    + rewrite IH. split.
      * intros (pre & g & post & -> & Hpre & Hg).
        exists (f :: pre), g, post. split; [done|]. split; [|done].
        intros h [->|Hh]%elem_of_cons; [by rewrite Hm | by apply Hpre].
      * intros (pre & g & post & He & Hpre & Hg).
        destruct pre as [|f' pre]; simpl in He; injection He as <- ->.
        -- congruence.
        -- exists pre, g, post. split; [done|]. split; [|done].
           intros h Hh. apply Hpre. by right.
    + split.
      * intros [= ->]. exists [], f, fs. split; [done|]. split; [|done].
        by intros g ?%elem_of_nil.
      * intros (pre & g & post & He & Hpre & Hg).
        destruct pre as [|f' pre]; simpl in He; injection He as <- ->.
        -- congruence.
        -- specialize (Hpre f ltac:(by left)). by rewrite Hm in Hpre.
Qed.

(** X14: which error [DeserializeQuestion] returns.  A failed check of the
    "type" key is reported before any property is looked at; otherwise the
    error is that of the first property deserializer, in the declared order
    of the fields, that fails. *)
Theorem DeserializeQuestion_first_error
    (mgr : Question.Manager P) (m : gmap string JValue)
    (aliasMap : gmap string string) (e : error) :
  Question.DeserializeQuestion mgr m aliasMap = Err e
  <-> Question.checkType m (Spec.aliasPrefixOf aliasMap) = Some e
      \/ (Question.checkType m (Spec.aliasPrefixOf aliasMap) = None
          /\ exists pre f post,
               Question.declared = (pre ++ f :: post)%list
               /\ (forall g, g ∈ pre -> is_Err (mgr g m aliasMap) = false)
               /\ mgr f m aliasMap = Err e).
Proof.
  unfold Question.DeserializeQuestion. fold (Spec.aliasPrefixOf aliasMap).
  destruct (Question.checkType m (Spec.aliasPrefixOf aliasMap)) as [e'|].
  - split; [intros [= ->]; by left|]. by intros [[= ->]|[[=] _]].
  - pose proof (deserializeKnown_error mgr Question.declared m aliasMap
                  (Question.mk (fun _ => None) (lookupAlias aliasMap) ∅) e) as Hiff.
    destruct (Question.deserializeKnown _ _ _ _ _) as [q|e'] eqn:Hd.
    + split; [discriminate|]. intros [[=]|[_ Hex]].
      apply Hiff in Hex. discriminate.
    + split.
      * intros [= ->]. right. split; [done|]. by apply Hiff.
      * intros [[=]|[_ Hex]]. apply Hiff in Hex. congruence.
Qed.

Lemma serializeKnown_error fs (this : Qn) m0 e :
  Question.serializeKnown fs this m0 = Err e
  <-> exists pre f post p,
        fs = (pre ++ f :: post)%list
        /\ (forall g p', g ∈ pre -> Question.fields this g = Some p' ->
                         is_Err (Question.prop_Serialize p') = false)
        /\ Question.fields this f = Some p
        /\ Question.prop_Serialize p = Err e.
Proof.
  revert m0. induction fs as [|f fs IH]; intros m0; simpl.
  - split; [discriminate|]. intros (pre & g & post & p & He & _). by destruct pre.
  - assert (forall m1 : gmap string JValue,
        (forall p', Question.fields this f = Some p' ->
                    is_Err (Question.prop_Serialize p') = false) ->
        (Question.serializeKnown fs this m1 = Err e
         <-> exists pre g post p,
               (f :: fs = pre ++ g :: post)%list
               /\ (forall h p', h ∈ pre -> Question.fields this h = Some p' ->
                                is_Err (Question.prop_Serialize p') = false)
               /\ Question.fields this g = Some p
               /\ Question.prop_Serialize p = Err e)) as Hskip.
    { intros m1 Hf. rewrite IH. split.
      - intros (pre & g & post & p & -> & Hpre & Hg & Hp).
        exists (f :: pre), g, post, p. repeat split; try done.
        intros h p' [->|Hh]%elem_of_cons; [apply Hf | by apply Hpre].
      - intros (pre & g & post & p & He & Hpre & Hg & Hp).
        destruct pre as [|f' pre]; simpl in He; injection He as <- ->.
        + apply Hf in Hg. by rewrite Hp in Hg.
        + exists pre, g, post, p. repeat split; try done.
          intros h p' Hh. apply Hpre. by right. }
    destruct (Question.fields this f) as [p|] eqn:Hf; [|by apply Hskip].
    destruct (Question.prop_Serialize p) as [i|e'] eqn:Hp.
    + destruct i; apply Hskip; intros p' [= <-]; by rewrite Hp.
    + split.
      * intros [= ->]. exists [], f, fs, p. repeat split; try done.
        by intros g p' ?%elem_of_nil.
      * intros (pre & g & post & p' & He & Hpre & Hg & Hp').
        destruct pre as [|f' pre]; simpl in He; injection He as <- ->.
        -- congruence.
        -- specialize (Hpre f p ltac:(by left) Hf). by rewrite Hp in Hpre.
Qed.

(** X15: [Serialize] fails exactly when the [Serialize] of some property
    that is set fails, and then returns the error of the first such
    property in the declared order; properties that are not set and the
    unknown entries never make it fail. *)
Theorem Serialize_first_error (this : Qn) (e : error) :
  Question.Serialize this = Err e
  <-> exists pre f post p,
        Question.declared = (pre ++ f :: post)%list
        /\ (forall g p', g ∈ pre -> Question.fields this g = Some p' ->
                         is_Err (Question.prop_Serialize p') = false)
        /\ Question.fields this f = Some p
        /\ Question.prop_Serialize p = Err e.
Proof.
  unfold Question.Serialize.
  pose proof (serializeKnown_error Question.declared this (Question.typeEntry this) e)
    as Hiff.
  destruct (Question.serializeKnown Question.declared this (Question.typeEntry this))
    as [known|e'].
  - split; [discriminate|]. intros Hex. apply Hiff in Hex. discriminate Hex.
  - split.
    + intros [= ->]. by apply Hiff.
    + intros Hex. apply Hiff in Hex. by injection Hex as ->.
Qed.

Lemma serializeKnown_unset f fs (this : Qn) m0 :
  Question.fields this f = None ->
  Question.serializeKnown (f :: fs) this m0 = Question.serializeKnown fs this m0.
Proof. intros Hf. simpl. by rewrite Hf. Qed.

Lemma serializeKnown_nil f fs (this : Qn) m0 p :
  Question.fields this f = Some p ->
  Question.prop_Serialize p = Ok JNil ->
  Question.serializeKnown (f :: fs) this m0 = Question.serializeKnown fs this m0.
Proof. intros Hf Hp. simpl. by rewrite Hf, Hp. Qed.

Lemma serializeKnown_emit f fs (this : Qn) m0 p i :
  Question.fields this f = Some p ->
  Question.prop_Serialize p = Ok i ->
  i <> JNil ->
  Question.serializeKnown (f :: fs) this m0
  = Question.serializeKnown fs this (<[Question.prop_Name p := i]> m0).
Proof. intros Hf Hp Hi. simpl. rewrite Hf, Hp. by destruct i. Qed.

Lemma serializeKnown_fail f fs (this : Qn) m0 p e :
  Question.fields this f = Some p ->
  Question.prop_Serialize p = Err e ->
  Question.serializeKnown (f :: fs) this m0 = Err e.
Proof. intros Hf Hp. simpl. by rewrite Hf, Hp. Qed.

Lemma serializeKnown_entries fs (this : Qn) m0 out :
  Question.serializeKnown fs this m0 = Ok out ->
  (forall k, is_Some (m0 !! k) -> is_Some (out !! k))
  /\ (forall f p v, f ∈ fs -> Question.fields this f = Some p ->
                    Question.prop_Serialize p = Ok v -> v <> JNil ->
                    is_Some (out !! Question.prop_Name p))
  /\ (forall k v, out !! k = Some v ->
        m0 !! k = Some v
        \/ exists f p, f ∈ fs /\ Question.fields this f = Some p
                       /\ Question.prop_Name p = k
                       /\ Question.prop_Serialize p = Ok v /\ v <> JNil).
Proof.
  revert m0. induction fs as [|f fs IH]; intros m0.
  - simpl. intros [= <-]. repeat split; try done; [by intros ????%elem_of_nil | eauto].
  - assert (forall m1 : gmap string JValue,
        (forall k, is_Some (m0 !! k) -> is_Some (m1 !! k)) ->
        (forall p v, Question.fields this f = Some p ->
                     Question.prop_Serialize p = Ok v -> v <> JNil ->
                     is_Some (m1 !! Question.prop_Name p)) ->
        (forall k v, m1 !! k = Some v ->
             m0 !! k = Some v
             \/ exists p, Question.fields this f = Some p
                          /\ Question.prop_Name p = k
                          /\ Question.prop_Serialize p = Ok v /\ v <> JNil) ->
        Question.serializeKnown fs this m1 = Ok out ->
        (forall k, is_Some (m0 !! k) -> is_Some (out !! k))
        /\ (forall g p v, g ∈ f :: fs -> Question.fields this g = Some p ->
                          Question.prop_Serialize p = Ok v -> v <> JNil ->
                          is_Some (out !! Question.prop_Name p))
        /\ (forall k v, out !! k = Some v ->
              m0 !! k = Some v
              \/ exists g p, g ∈ f :: fs /\ Question.fields this g = Some p
                             /\ Question.prop_Name p = k
                             /\ Question.prop_Serialize p = Ok v /\ v <> JNil)) as Hstep.
    { intros m1 Hmono Hhere Hfrom Hs. destruct (IH _ Hs) as (Hm & Hall & Hprov).
      split; [|split].
      - intros k Hk. by apply Hm, Hmono.
      - intros g p v [->|Hg]%elem_of_cons Hf Hp Hv.
        + apply Hm. by eapply Hhere.
        + by eapply Hall.
      - intros k v Hk. destruct (Hprov k v Hk) as [Hk1|(g & p & Hg & Hf & Hn & Hp & Hv)].
        + destruct (Hfrom k v Hk1) as [?|(p & Hf & Hn & Hp & Hv)]; [by left|].
          right. exists f, p. repeat split; try done. by left.
        + right. exists g, p. repeat split; try done. by right. }
    destruct (Question.fields this f) as [p|] eqn:Hf.
    2: { rewrite (serializeKnown_unset _ _ _ _ Hf).
         apply Hstep; [done | by intros ?? [=] | by left]. }
    destruct (Question.prop_Serialize p) as [i|e] eqn:Hp.
    2: { by rewrite (serializeKnown_fail _ _ _ _ _ _ Hf Hp). }
    assert (i = JNil \/ i <> JNil) as [->|Hi] by (destruct i; (by left) || by right).
    + rewrite (serializeKnown_nil _ _ _ _ _ Hf Hp).
      apply Hstep; [done | | by left].
      intros p' v [= <-]. rewrite Hp. by intros [= <-].
    + rewrite (serializeKnown_emit _ _ _ _ _ _ Hf Hp Hi).
      apply Hstep.
      * intros k Hk. destruct (decide (Question.prop_Name p = k)) as [<-|Hne].
        -- rewrite lookup_insert_eq. eauto.
        -- by rewrite lookup_insert_ne.
      * intros p' v [= <-]. rewrite lookup_insert_eq. eauto.
      * intros k v. destruct (decide (Question.prop_Name p = k)) as [<-|Hne].
        -- rewrite lookup_insert_eq. intros [= <-]. right. by exists p.
        -- rewrite lookup_insert_ne by done. by left.
Qed.

(** X16: what a successful [Serialize] returns.  The map always has the key
    "type"; every property that is set and serializes to a non-nil value
    has its name as a key; every unknown key is a key.  Conversely every
    entry is the type entry, the non-nil serialization of a property that
    is set, stored under that property's name, or an unknown entry: nothing
    else is emitted, and no known property is emitted as nil.  When no
    property is named "type", that key holds the alias-qualified name
    Question, even if an unknown entry uses the same key. *)
Theorem Serialize_entries (this : Qn) (out : gmap string JValue) :
  Question.Serialize this = Ok out ->
  is_Some (out !! "type")
  /\ (forall f p v, Question.fields this f = Some p ->
                    Question.prop_Serialize p = Ok v -> v <> JNil ->
                    is_Some (out !! Question.prop_Name p))
  /\ (forall k, is_Some (Question.unknown this !! k) -> is_Some (out !! k))
  /\ (forall k v, out !! k = Some v ->
        (k = "type" /\ v = JStr (qualify (Question.alias this) "Question"))
        \/ (exists f p, Question.fields this f = Some p
                        /\ Question.prop_Name p = k
                        /\ Question.prop_Serialize p = Ok v /\ v <> JNil)
        \/ Question.unknown this !! k = Some v)
  /\ ((forall f p, Question.fields this f = Some p -> Question.prop_Name p <> "type") ->
      out !! "type" = Some (JStr (qualify (Question.alias this) "Question"))).
Proof.
  unfold Question.Serialize.
  destruct (Question.serializeKnown _ _ _) as [known|] eqn:Hs; [|discriminate].
  intros [= <-]. rewrite serializeUnknown_union.
  destruct (serializeKnown_entries _ _ _ _ Hs) as (Hm & Hall & Hprov).
  assert (is_Some (known !! "type")) as [t Ht].
  { apply Hm. unfold Question.typeEntry. rewrite lookup_singleton_eq. eauto. }
  repeat split.
  - rewrite lookup_union, Ht. destruct (Question.unknown this !! "type"); simpl; eauto.
  - intros f p v Hf Hp Hv.
    destruct (Hall f p v (declared_complete f) Hf Hp Hv) as [w Hw].
    rewrite lookup_union, Hw.
    destruct (Question.unknown this !! Question.prop_Name p); simpl; eauto.
  - intros k [v Hv]. rewrite lookup_union, Hv. destruct (known !! k); simpl; eauto.
  - intros k v Hk. apply lookup_union_Some_raw in Hk as [Hk|[_ Hk]]; [|by right; right].
    destruct (Hprov k v Hk) as [Hk0|(f & p & _ & Hf & Hn & Hp & Hv)].
    + left. unfold Question.typeEntry in Hk0.
      by apply lookup_singleton_Some in Hk0 as [<- <-].
    + right; left. by exists f, p.
  - intros Hnames. rewrite lookup_union, Ht.
    destruct (Hprov "type" t Ht) as [Hk0|(f & p & _ & Hf & Hn & _)].
    + unfold Question.typeEntry in Hk0. rewrite lookup_singleton_eq in Hk0.
      injection Hk0 as <-. by destruct (Question.unknown this !! "type").
    + by destruct (Hnames f p Hf).
Qed.



Lemma lessThanFrom_skip pre rest (this o : Qn) :
  (forall g, g ∈ pre ->
     (Question.fields this g = None /\ Question.fields o g = None)
     \/ (exists l r, Question.fields this g = Some l /\ Question.fields o g = Some r
                     /\ Question.prop_LessThan l r = false
                     /\ Question.prop_LessThan r l = false)) ->
  Question.lessThanFrom (pre ++ rest)%list this o = Question.lessThanFrom rest this o.
Proof.
  induction pre as [|g pre IH]; intros Htie; [done|].
  cbn [app Question.lessThanFrom].
  destruct (Htie g ltac:(by left)) as [[-> ->]|(l & r & -> & -> & Hlr & Hrl)].
  - cbn. apply IH. intros h Hh. apply Htie. by right.
  - cbn. rewrite Hlr, Hrl. apply IH. intros h Hh. apply Htie. by right.
Qed.

(** X18: [LessThan] is decided by the first property, in declared order,
    on which the two Questions differ in one of these ways (all earlier
    properties being nil on both sides, or non-nil on both sides with
    neither less than the other): if only the other side has it, this side
    is less; if both have it, this side is less when its property is less,
    and not less when the other side's property is less. *)
Theorem Question_LessThan_first_difference
    (this o : Qn) (pre : list Question.Field) (f : Question.Field)
    (post : list Question.Field) :
  Question.declared = (pre ++ f :: post)%list ->
  (forall g, g ∈ pre ->
     (Question.fields this g = None /\ Question.fields o g = None)
     \/ (exists l r, Question.fields this g = Some l /\ Question.fields o g = Some r
                     /\ Question.prop_LessThan l r = false
                     /\ Question.prop_LessThan r l = false)) ->
  (Question.fields this f = None -> is_Some (Question.fields o f) ->
     Question.LessThan this o = true)
  /\ (forall l r, Question.fields this f = Some l -> Question.fields o f = Some r ->
        Question.prop_LessThan l r = true -> Question.LessThan this o = true)
  /\ (forall l r, Question.fields this f = Some l -> Question.fields o f = Some r ->
        Question.prop_LessThan l r = false -> Question.prop_LessThan r l = true ->
        Question.LessThan this o = false).
Proof.
  intros Hd Htie. unfold Question.LessThan.
  rewrite Hd, (lessThanFrom_skip _ _ _ _ Htie). cbn [Question.lessThanFrom].
  repeat split.
  - intros -> [r ->]. reflexivity.
  - intros l r -> -> Hlr. cbn. by rewrite Hlr.
  - intros l r -> -> Hlr Hrl. cbn. by rewrite Hlr, Hrl.
Qed.

(** X19: when every property is nil on both sides, or non-nil on both sides
    with neither less than the other, [LessThan] compares the numbers of
    unknown entries and nothing else about them.  In particular, if no
    property is less than itself, no Question is less than itself. *)
Theorem Question_LessThan_ties (this o : Qn) :
  ((forall g,
      (Question.fields this g = None /\ Question.fields o g = None)
      \/ (exists l r, Question.fields this g = Some l /\ Question.fields o g = Some r
                      /\ Question.prop_LessThan l r = false
                      /\ Question.prop_LessThan r l = false)) ->
   Question.LessThan this o
   = (size (Question.unknown this) <? size (Question.unknown o))%nat)
  /\ ((forall p : P, Question.prop_LessThan p p = false) ->
      Question.LessThan this this = false).
Proof.
  assert (forall a b : Qn,
    (forall g,
      (Question.fields a g = None /\ Question.fields b g = None)
      \/ (exists l r, Question.fields a g = Some l /\ Question.fields b g = Some r
                      /\ Question.prop_LessThan l r = false
                      /\ Question.prop_LessThan r l = false)) ->
    Question.LessThan a b
    = (size (Question.unknown a) <? size (Question.unknown b))%nat) as Hties.
  { intros a b Htie. unfold Question.LessThan.
    rewrite <- (app_nil_r Question.declared).
    rewrite lessThanFrom_skip by (intros g _; apply Htie).
    cbn [Question.lessThanFrom]. unfold Question.GetUnknownProperties.
    destruct (size (Question.unknown a) <? size (Question.unknown b))%nat; [done|].
    by destruct (size (Question.unknown b) <? size (Question.unknown a))%nat. }
  split; [apply Hties|].
  intros Hirr. rewrite Hties.
  - apply Nat.ltb_irrefl.
  - intros g. destruct (Question.fields this g) as [p|]; [|by left].
    right. exists p, p. by rewrite Hirr.
Qed.

(** X20: the static tables of Question.  Nothing that Question extends is
    disjoint with it; [IsOrExtendsQuestion] holds exactly of the types
    named Question, since nothing extends Question; and a Question itself
    is neither among its own extensions nor disjoint with itself. *)
Theorem Question_tables {T} `{!Question.HasTypeName T} (other : T) (this : Qn) :
  (Question.ActivityStreamsQuestionExtends other = true ->
     Question.QuestionIsDisjointWith other = false)
  /\ (Question.IsOrExtendsQuestion other = true
      <-> Question.typeNameOf other = "Question")
  /\ (Question.ActivityStreamsQuestionExtends other = true
      <-> Question.typeNameOf other = "Activity"
          \/ Question.typeNameOf other = "IntransitiveActivity"
          \/ Question.typeNameOf other = "Object")
  /\ Question.IsExtending this other = Question.ActivityStreamsQuestionExtends other
  /\ Question.ActivityStreamsQuestionExtends this = false
  /\ Question.QuestionIsDisjointWith this = false
  /\ Question.IsOrExtendsQuestion this = true.
Proof.
  unfold Question.IsOrExtendsQuestion, Question.ActivityStreamsQuestionExtends,
    Question.QuestionIsDisjointWith, Question.QuestionIsExtendedBy, Question.IsExtending.
  cbn [existsb].
  repeat split; try reflexivity.
  - destruct (String.eqb_spec "Activity" (Question.typeNameOf other)) as [<-|];
      [reflexivity|].
    destruct (String.eqb_spec "IntransitiveActivity" (Question.typeNameOf other)) as [<-|];
      [reflexivity|].
    destruct (String.eqb_spec "Object" (Question.typeNameOf other)) as [<-|];
      [reflexivity | discriminate].
  - by destruct (String.eqb_spec (Question.typeNameOf other) "Question").
  - intros ->. reflexivity.
  - destruct (String.eqb_spec "Activity" (Question.typeNameOf other)); [by left|].
    destruct (String.eqb_spec "IntransitiveActivity" (Question.typeNameOf other));
      [by right; left|].
    destruct (String.eqb_spec "Object" (Question.typeNameOf other));
      [by right; right | discriminate].
  - intros [He|[He|He]]; rewrite He; reflexivity.
Qed.
End QuestionOps.

(** ** The further properties at work on concrete inputs *)
Section MoreInstances.
Import Model Inputs.

Lemma objLess_irrefl (v : Obj) : vt_LessThan v (Some v) = false.
Proof. apply Nat.ltb_irrefl. Qed.

Lemma objLess_asym (v w : Obj) :
  vt_LessThan v (Some w) = true -> vt_LessThan w (Some v) = false.
Proof. simpl. intros Hlt%Nat.ltb_lt. apply Nat.ltb_ge. lia. Qed.

Lemma view_wrap (name : string) (d : Dyn) (x : Obj) :
  view name d = Some x -> wrap name x = d.
Proof.
  unfold view, wrap. destruct d as [i o]. simpl.
  destruct (String.eqb_spec i name) as [->|]; [|discriminate]. by intros [= ->].
Qed.

Lemma at_most_one_slot_witness :
  (PartOf.slotsUsed
     (PartOf.mk (Link:=Obj) (Collection:=Obj) (CollectionPage:=Obj) (Mention:=Obj)
        (OrderedCollection:=Obj) (OrderedCollectionPage:=Obj)
        None None None None None None JNil (Some exampleURL) "") <= 1)%nat
  /\ (Liked.slotsUsed
     (Liked.mk (OrderedCollection:=Obj) (Collection:=Obj) (CollectionPage:=Obj)
        (OrderedCollectionPage:=Obj)
        None None None None JNil (Some exampleURL) "") <= 1)%nat.
Proof.
  destruct (@at_most_one_slot modelUrl Obj Obj Obj Obj Obj Obj)
    as (HP & _ & _ & HL & _).
  split.
  - apply (HP partOfManager partOfIRI ∅). vm_compute; reflexivity.
  - apply (HL likedManager likedIRI ∅). vm_compute; reflexivity.
Defined.

Lemma LessThan_orders_by_kind_witness :
  PartOf.LessThan partOfHoldingIRI freshPartOf = Some true
  /\ Liked.LessThan freshLiked likedHoldingIRI = Some false.
Proof.
  destruct (LessThan_orders_by_kind partOfHoldingIRI freshPartOf freshLiked likedHoldingIRI)
    as [(_ & HP & _) (_ & _ & HL)].
  split; [apply HP | apply HL]; vm_compute; reflexivity.
Defined.

Lemma partOf_LessThan_same_kind_witness :
  PartOf.LessThan partOfHoldingOtherIRI partOfHoldingIRI = Some true.
Proof.
  destruct (partOf_LessThan_same_kind partOfHoldingOtherIRI partOfHoldingIRI)
    as (_ & _ & _ & _ & _ & _ & HI & _).
  destruct HI as (u & u' & Hu & Hu' & ->); [reflexivity | reflexivity |].
  injection Hu as <-. injection Hu' as <-. vm_compute; reflexivity.
Defined.


Lemma LessThan_strict_witness :
  PartOf.LessThan partOfHoldingIRI partOfHoldingIRI = Some false
  /\ Liked.LessThan likedHoldingIRI likedHoldingIRI = Some false.
Proof.
  destruct (LessThan_strict partOfHoldingIRI partOfHoldingIRI
              likedHoldingIRI likedHoldingIRI
              objLess_irrefl objLess_irrefl objLess_irrefl objLess_irrefl
              objLess_irrefl objLess_irrefl
              objLess_asym objLess_asym objLess_asym objLess_asym
              objLess_asym objLess_asym) as [[HP _] [HL _]].
  split; [exact HP | exact HL].
Defined.

Lemma partOf_SetType_outcome_witness :
  PartOf.KindIndex (fst (PartOf.SetType (Some collectionValue) partOfHoldingIRI)) = 1%Z
  /\ PartOf.slotsUsed (fst (PartOf.SetType (Some collectionValue) partOfHoldingIRI)) = 1%nat
  /\ fst (PartOf.SetType (Some noteValue) partOfHoldingIRI) = partOfHoldingIRI.
Proof.
  split; [reflexivity|]. split.
  - destruct (partOf_SetType_outcome (Some collectionValue) partOfHoldingIRI)
      as (_ & _ & Hok & _).
    apply Hok. reflexivity.
  - destruct (partOf_SetType_outcome (Some noteValue) partOfHoldingIRI)
      as (_ & Herr & _).
    apply Herr. reflexivity.
Defined.

Lemma liked_SetType_outcome_witness :
  Liked.slotsUsed (fst (Liked.SetType (Some collectionValue) likedHoldingIRI)) = 1%nat
  /\ fst (Liked.SetType (Some noteValue) likedHoldingIRI) = likedHoldingIRI.
Proof.
  split.
  - destruct (liked_SetType_outcome (Some collectionValue) likedHoldingIRI)
      as (_ & _ & Hok & _).
    apply Hok. reflexivity.
  - destruct (liked_SetType_outcome (Some noteValue) likedHoldingIRI)
      as (_ & Herr & _).
    apply Herr. reflexivity.
Defined.

Lemma GetType_nil_iff_witness :
  PartOf.GetType (VType:=Dyn) partOfHoldingIRI = None
  /\ Liked.GetType (VType:=Dyn) likedHoldingIRI = None.
Proof.
  destruct (GetType_nil_iff (VType:=Dyn) partOfHoldingIRI likedHoldingIRI) as [HP HL].
  split; [apply HP | apply HL]; reflexivity.
Defined.

Lemma GetType_after_SetType_witness :
  PartOf.GetType (fst (PartOf.SetType (Some collectionValue) partOfHoldingIRI))
  = Some collectionValue
  /\ Liked.GetType (fst (Liked.SetType (Some collectionValue) likedHoldingIRI))
  = Some collectionValue.
Proof.
  destruct (GetType_after_SetType collectionValue partOfHoldingIRI likedHoldingIRI)
    as [HP HL]; try (intros x; apply view_wrap).
  split; [apply HP | apply HL]; reflexivity.
Defined.

Lemma partOf_unrecognized_roundtrip_witness :
  exists this,
    PartOf.DeserializePartOfProperty partOfManager partOfBareName ∅ = (Some this, None)
    /\ PartOf.Serialize this = Ok (JStr "file.txt").
Proof.
  destruct (partOf_unrecognized_roundtrip (VType:=Dyn) partOfManager partOfBareName ∅
              (JStr "file.txt")) as (this & Hd & Hs & _).
  - vm_compute; reflexivity.
  - intros [u (s & [= <-] & Hp & Hs)]. vm_compute in Hp.
    injection Hp as <-. by apply Hs.
  - intros (m & [=] & _).
  - exists this. split; [exact Hd | exact Hs].
Defined.


Lemma DeserializeQuestion_fields_witness :
  exists q,
    Question.DeserializeQuestion questionManager questionWithKnownAndUnknown ∅ = Ok q
    /\ Question.fields q Question.ActivityStreamsActor
       = Some {| rawName := "actor"; rawValue := JStr "https://example.com/a";
                 rawRank := 0 |}
    /\ Question.fields q Question.ActivityStreamsAltitude = None.
Proof.
  destruct (Question.DeserializeQuestion questionManager questionWithKnownAndUnknown ∅)
    as [q|e] eqn:Hd.
  - exists q. split; [reflexivity|].
    destruct (DeserializeQuestion_fields questionManager questionWithKnownAndUnknown ∅ q Hd)
      as [Hf _].
    split.
    + pose proof (Hf Question.ActivityStreamsActor) as Ha.
      assert (questionManager Question.ActivityStreamsActor questionWithKnownAndUnknown ∅
              = Ok (Some {| rawName := "actor"; rawValue := JStr "https://example.com/a";
                            rawRank := 0 |})) as Hc by (vm_compute; reflexivity).
      rewrite Hc in Ha. by injection Ha as <-.
    + pose proof (Hf Question.ActivityStreamsAltitude) as Ha.
      assert (questionManager Question.ActivityStreamsAltitude questionWithKnownAndUnknown ∅
              = Ok None) as Hc by (vm_compute; reflexivity).
      rewrite Hc in Ha. by injection Ha as <-.
  - exfalso. vm_compute in Hd. discriminate Hd.
Defined.

Lemma DeserializeQuestion_first_error_witness :
  Question.DeserializeQuestion failingManager questionFoo ∅
  = Err (ErrExternal "generator").
Proof.
  apply DeserializeQuestion_first_error. right. split; [vm_compute; reflexivity|].
  exists (take 14 Question.declared), Question.ActivityStreamsGenerator,
         (drop 15 Question.declared).
  split; [reflexivity|]. split; [|reflexivity].
  intros g Hg. cbn in Hg.
  repeat (apply elem_of_cons in Hg as [->|Hg];
          [unfold failingManager, questionManager; by destruct (_ !! _)|]).
  by apply elem_of_nil in Hg.
Defined.

Lemma Serialize_first_error_witness :
  Question.Serialize questionWithActor <> Err ErrNoType.
Proof.
  intros Hs. apply Serialize_first_error in Hs as (pre & f & post & p & _ & _ & _ & Hp).
  discriminate Hp.
Defined.

Lemma Serialize_entries_witness :
  exists out,
    Question.Serialize questionWithActor = Ok out
    /\ is_Some (out !! "type")
    /\ is_Some (out !! "p").
Proof.
  destruct (Question.Serialize questionWithActor) as [out|e] eqn:Hs.
  - exists out. split; [reflexivity|].
    destruct (Serialize_entries questionWithActor out Hs) as (Ht & Hall & _).
    split; [exact Ht|].
    apply (Hall Question.ActivityStreamsActor someProperty (JStr "v"));
      [reflexivity | reflexivity | discriminate].
  - exfalso. vm_compute in Hs. discriminate Hs.
Defined.


Lemma Question_LessThan_first_difference_witness :
  Question.LessThan emptyQuestion questionWithAltitude = true.
Proof.
  destruct (Question_LessThan_first_difference emptyQuestion questionWithAltitude
              [Question.ActivityStreamsActor] Question.ActivityStreamsAltitude
              (drop 2 Question.declared)) as (Hnil & _).
  - reflexivity.
  - intros g Hg. apply elem_of_cons in Hg as [->|Hg]; [by left|].
    by apply elem_of_nil in Hg.
  - apply Hnil; [reflexivity|]. by eexists.
Defined.

Lemma Question_LessThan_ties_witness :
  Question.LessThan questionWithActor questionWithActor = false.
Proof.
  destruct (Question_LessThan_ties questionWithActor questionWithActor) as [_ Hirr].
  apply Hirr. intros p. apply Nat.ltb_irrefl.
Defined.

Lemma Question_tables_witness :
  Question.QuestionIsDisjointWith "Activity" = false
  /\ Question.IsOrExtendsQuestion "Question" = true.
Proof.
  split.
  - destruct (Question_tables "Activity" emptyQuestion) as (Hd & _).
    apply Hd. reflexivity.
  - destruct (Question_tables "Question" emptyQuestion) as (_ & Hq & _).
    apply Hq. reflexivity.
Defined.
End MoreInstances.

(** ** The unknown properties of a Question *)

Lemma existsb_elem (k : string) (l : list string) :
  existsb (String.eqb k) l = true <-> k ∈ l.
Proof.
  rewrite existsb_exists. split.
  - intros (x & Hx & He). apply String.eqb_eq in He as ->. by apply list_elem_of_In.
  - intros Hk. exists k. split; [by apply list_elem_of_In | apply String.eqb_refl].
Qed.

Lemma isKnownKey_names (k : string) :
  Question.isKnownKey k = true <-> k ∈ declaredPropertyNames \/ k ∈ companionKeys.
Proof.
  rewrite <- elem_of_app. unfold Question.isKnownKey. split.
  - intros Hk%existsb_elem. unfold Question.knownKeys in Hk.
    repeat (apply elem_of_cons in Hk as [->|Hk]; [by apply existsb_elem|]).
    by apply elem_of_nil in Hk.
  - intros Hk. unfold declaredPropertyNames, companionKeys in Hk. cbn [app] in Hk.
    repeat (apply elem_of_cons in Hk as [->|Hk]; [reflexivity|]).
    by apply elem_of_nil in Hk.
Qed.

Section UnknownProperties.
Context {P : Type} `{!Question.Property P}.

(** C9 (amended): a map with "type": "Question" on which no property
    deserializer fails deserializes; the unknown properties are exactly the
    entries of the input whose key, as written in the map, is neither one
    of the thirty-nine declared property names nor one of the companion
    keys contentMap, nameMap and summaryMap; and a successful [Serialize]
    re-emits every unknown entry unchanged, except one whose key a known
    entry already uses, which is dropped. *)
Theorem unknown_properties_outside_known_keys
    (mgr : Question.Manager P) (m : gmap string JValue)
    (aliasMap : gmap string string) :
  m !! "type" = Some (JStr "Question") ->
  (forall f, is_Err (mgr f m aliasMap) = false) ->
  exists q,
    Question.DeserializeQuestion mgr m aliasMap = Ok q
    /\ (forall k v,
          Question.GetUnknownProperties q !! k = Some v
          <-> m !! k = Some v /\ k ∉ declaredPropertyNames /\ k ∉ companionKeys)
    /\ (forall out, Question.Serialize q = Ok out ->
          exists known,
            Question.serializeKnown Question.declared q (Question.typeEntry q) = Ok known
            /\ out = known ∪ Question.GetUnknownProperties q
            /\ forall k v, Question.GetUnknownProperties q !! k = Some v ->
                           out !! k = Some (default v (known !! k))).
Proof.
  intros Ht Hok.
  destruct (unknown_properties_survive mgr m aliasMap Ht Hok) as (q & Hd & Hu & Hs).
  exists q. split; [exact Hd|]. split; [|exact Hs].
  intros k v. rewrite Hu.
  pose proof (isKnownKey_names k) as Hn.
  destruct (Question.isKnownKey k).
  - split; [discriminate|]. intros (_ & Hd1 & Hd2).
    destruct (proj1 Hn eq_refl); contradiction.
  - split; [|by intros (? & _)]. intros Hm. split; [exact Hm|].
    split; intros Hin; assert (false = true) as Hf by (apply Hn; auto); discriminate Hf.
Qed.
End UnknownProperties.

Section UnknownInstances.
Import Model Inputs.

(** C9, as first stated, fails: "contentMap" is not the name of a declared
    property of Question, yet the entry under that key is not among the
    unknown properties of the deserialized Question, while "foo" is. *)
Lemma contentMap_is_not_kept :
  "contentMap" ∉ declaredPropertyNames
  /\ questionContentMap !! "contentMap" = Some (JStr "x")
  /\ exists q,
      Question.DeserializeQuestion questionManager questionContentMap ∅ = Ok q
      /\ Question.GetUnknownProperties q !! "contentMap" = None
      /\ Question.GetUnknownProperties q !! "foo" = Some (JStr "bar").
Proof.
  split.
  { intros Hin. unfold declaredPropertyNames in Hin.
    repeat (apply elem_of_cons in Hin as [Hin|Hin]; [discriminate Hin|]).
    by apply elem_of_nil in Hin. }
  split; [vm_compute; reflexivity|].
  destruct (unknown_properties_survive questionManager questionContentMap ∅)
    as (q & Hd & Hu & _).
  - vm_compute; reflexivity.
  - intros f. unfold questionManager. by destruct (questionContentMap !! _).
  - exists q. split; [exact Hd|]. split.
    + rewrite Hu. vm_compute; reflexivity.
    + rewrite Hu. vm_compute; reflexivity.
Qed.

Lemma unknown_properties_outside_known_keys_witness :
  exists q,
    Question.DeserializeQuestion questionManager questionFoo ∅ = Ok q
    /\ Question.GetUnknownProperties q !! "foo" = Some (JStr "bar").
Proof.
  destruct (unknown_properties_outside_known_keys questionManager questionFoo ∅)
    as (q & Hd & Hu & _).
  - vm_compute; reflexivity.
  - intros f. unfold questionManager. by destruct (questionFoo !! _).
  - exists q. split; [exact Hd|]. apply Hu. split; [vm_compute; reflexivity|].
    split; intros Hin.
    + unfold declaredPropertyNames in Hin.
      repeat (apply elem_of_cons in Hin as [Hin|Hin]; [discriminate Hin|]).
      by apply elem_of_nil in Hin.
    + unfold companionKeys in Hin.
      repeat (apply elem_of_cons in Hin as [Hin|Hin]; [discriminate Hin|]).
      by apply elem_of_nil in Hin.
Defined.
End UnknownInstances.
